(** * rest_framework_sso.utils: token codec and key resolution

    A shallow embedding of [src/rest_framework_sso/utils.py].  Python
    dictionaries are finite maps from claim names to dynamically typed
    values, exceptions are an explicit result type, and the calls into the
    JWT library, the key store, the PEM loaders and the clock are threaded
    through a small state-and-error monad that records every external call. *)

From Stdlib Require Import ZArith String Ascii List Bool Lia.
From stdpp Require Import gmap strings list fin_maps.

Local Open Scope string_scope.
Local Open Scope Z_scope.
Set Warnings "-register-all".

(** ** Python values *)

(** The values a claim can hold: [None], booleans, integers, text, lists and
    [datetime] objects.  Time is counted in whole seconds since the epoch,
    the resolution a token keeps. *)
Inductive value : Type :=
| VNone
| VBool (b : bool)
| VInt (n : Z)
| VStr (s : string)
| VList (l : list value)
| VDatetime (t : Z).

(** Python truthiness, the meaning of [not x] and [if x:]. *)
Definition truthy (v : value) : bool :=
  match v with
  | VNone => false
  | VBool b => b
  | VInt n => negb (n =? 0)
  | VStr s => negb (String.eqb s "")
  | VList l => match l with [] => false | _ => true end
  | VDatetime _ => true
  end.

(** Python [==] on values.  Booleans are integers ([True == 1]); values of
    otherwise different types are never equal. *)
Fixpoint py_eq (a b : value) {struct a} : bool :=
  match a, b with
  | VNone, VNone => true
  | VBool x, VBool y => Bool.eqb x y
  | VBool x, VInt y => (if x then 1 else 0) =? y
  | VInt x, VBool y => x =? (if y then 1 else 0)
  | VInt x, VInt y => x =? y
  | VStr x, VStr y => String.eqb x y
  | VList x, VList y =>
      (fix all2 (l1 l2 : list value) {struct l1} : bool :=
         match l1, l2 with
         | [], [] => true
         | u :: l1', w :: l2' => py_eq u w && all2 l1' l2'
         | _, _ => false
         end) x y
  | VDatetime x, VDatetime y => x =? y
  | _, _ => false
  end.

(** [dict.get(key)]: the value, or [None] when the key is missing. *)
Definition dict_get (d : gmap string value) (k : string) : value :=
  match d !! k with
  | Some v => v
  | None => VNone
  end.

(** ** Exceptions *)

(** The exception classes the module raises itself, those of the JWT
    library that reach its callers, and a catch-all for the other
    collaborators.  In the library [InvalidTokenError] is the base class of
    the verification errors ([MissingRequiredClaimError],
    [InvalidIssuerError], [InvalidAudienceError], [ExpiredSignatureError],
    [ImmatureSignatureError], [InvalidIssuedAtError],
    [InvalidAlgorithmError], [DecodeError]); [InvalidKeyError] is not one of
    them. *)
Inductive exn : Type :=
| RuntimeError (msg : string)
| TypeError (msg : string)
| IOError (msg : string)
| InvalidKeyError (msg : string)
| InvalidTokenError (msg : string)
| MissingRequiredClaimError (msg : string)
| InvalidIssuerError (msg : string)
| InvalidAudienceError (msg : string)
| ExpiredSignatureError (msg : string)
| ImmatureSignatureError (msg : string)
| InvalidIssuedAtError (msg : string)
| InvalidAlgorithmError (msg : string)
| DecodeError (msg : string)
| AuthenticationFailed (detail : string)
| OtherError (msg : string).

Inductive result (A : Type) : Type :=
| Ok (a : A)
| Raise (e : exn).
Arguments Ok {A} a.
Arguments Raise {A} e.

(** ** Text helpers *)

Definition lower_ascii (c : ascii) : ascii :=
  let n := nat_of_ascii c in
  if ((65 <=? n) && (n <=? 90))%nat then ascii_of_nat (n + 32) else c.

(** [str.lower()] on ASCII text. *)
Fixpoint lower (s : string) : string :=
  match s with
  | EmptyString => EmptyString
  | String c s' => String (lower_ascii c) (lower s')
  end.

(** [s.endswith(suffix)]. *)
Definition endswith (s suffix : string) : bool :=
  let ls := String.length s in
  let lf := String.length suffix in
  (lf <=? ls)%nat && String.eqb (substring (ls - lf) lf s) suffix.

(** [s[:-n]] for a positive [n]. *)
Definition drop_end (n : nat) (s : string) : string :=
  substring 0 (String.length s - n) s.

(** ** Key references *)

(** The value configured for an issuer in [PRIVATE_KEYS] or [PUBLIC_KEYS]:
    one reference, or a list of them. *)
Inductive key_refs : Type :=
| KeyStr (s : string)
| KeyList (l : list string).

Definition key_refs_truthy (o : option key_refs) : bool :=
  match o with
  | None => false
  | Some (KeyStr s) => negb (String.eqb s "")
  | Some (KeyList l) => match l with [] => false | _ => true end
  end.

(** The candidate references of an issuer: a single text stands for the
    one-element list (lines 156-158). *)
Definition key_refs_list (o : option key_refs) : list string :=
  match o with
  | Some (KeyStr s) => [s]
  | Some (KeyList l) => l
  | None => []
  end.

(** [if key_id:] for an optional text. *)
Definition key_id_truthy (key_id : option string) : bool :=
  match key_id with
  | Some s => negb (String.eqb s "")
  | None => false
  end.

Definition suffixes : list string := [".pem"].

(** [get_key_id(file_name)] (lines 145-150). *)
Definition get_key_id (file_name : string) : string :=
  (fix loop (l : list string) : string :=
     match l with
     | [] => file_name
     | suffix :: l' =>
         if endswith (lower file_name) suffix
         then drop_end (String.length suffix) file_name
         else loop l'
     end) suffixes.

(** [key_id in (ik, get_key_id(ik))] *)
Definition key_id_matches (key_id ik : string) : bool :=
  String.eqb key_id ik || String.eqb key_id (get_key_id ik).

(** [get_key_file_name(keys, issuer, key_id=None)] (lines 153-163). *)
Definition get_key_file_name (keys : gmap string key_refs) (issuer : string)
    (key_id : option string) : result string :=
  if negb (key_refs_truthy (keys !! issuer)) then
    Raise (InvalidKeyError "No keys defined for the given issuer")
  else
    let issuer_keys := key_refs_list (keys !! issuer) in
    let issuer_keys :=
      match key_id with
      | Some kid =>
          if key_id_truthy key_id
          then List.filter (key_id_matches kid) issuer_keys
          else issuer_keys
      | None => issuer_keys
      end in
    match issuer_keys with
    | [] => Raise (InvalidKeyError "No key matches the given key_id")
    | first :: _ => Ok first
    end.

(** The key resolver as the specification words it: with a key identifier,
    keep the candidates whose derived identifier equals it. *)
Definition spec_get_key_file_name (keys : gmap string key_refs) (issuer : string)
    (key_id : string) : result string :=
  if negb (key_refs_truthy (keys !! issuer)) then
    Raise (InvalidKeyError "No keys defined for the given issuer")
  else
    let candidates := key_refs_list (keys !! issuer) in
    match List.filter (fun ik => String.eqb (get_key_id ik) key_id) candidates with
    | [] => Raise (InvalidKeyError "No key matches the given key_id")
    | first :: _ => Ok first
    end.

(** ** The [claims] module, the settings and the collaborators *)

(** The constants of [rest_framework_sso.claims]: the claim names and the
    two token types.  The module is not part of the embedded file, so its
    constants are parameters of the development. *)
Class Claims : Type := {
  TOKEN : string;
  TOKEN_SESSION : string;
  TOKEN_AUTHORIZATION : string;
  SESSION_ID : string;
  USER_ID : string;
  EMAIL : string;
  SCOPES : string;
  ISSUER : string;
  AUDIENCE : string;
  EXPIRATION_TIME : string;
  ISSUED_AT : string;
  KEY_ID : string
}.

(** The names of distinct claims are distinct texts, and so are the two
    token types. *)
Definition claims_distinct `{Claims} : bool :=
  bool_decide (NoDup [TOKEN; SESSION_ID; USER_ID; EMAIL; SCOPES; ISSUER;
                      AUDIENCE; EXPIRATION_TIME; ISSUED_AT])
  && negb (String.eqb TOKEN_SESSION TOKEN_AUTHORIZATION).

(** The module's names of the issuer, the audience, the expiration and the
    time of issue are the registered claim names, the ones the [jwt]
    package knows these claims by. *)
Definition claims_registered `{Claims} : bool :=
  String.eqb ISSUER "iss" && String.eqb AUDIENCE "aud"
  && String.eqb EXPIRATION_TIME "exp" && String.eqb ISSUED_AT "iat".

(** [rest_framework_sso.settings.api_settings].  An unset value is [None];
    durations ([timedelta]) are counted in seconds. *)
Class Settings : Type := {
  IDENTITY : option string;
  SESSION_AUDIENCE : option value;
  AUTHORIZATION_AUDIENCE : option value;
  SESSION_EXPIRATION : option Z;
  AUTHORIZATION_EXPIRATION : option Z;
  ACCEPTED_ISSUERS : option (list string);
  PRIVATE_KEYS : gmap string key_refs;
  PUBLIC_KEYS : gmap string key_refs;
  ENCODE_ALGORITHM : string;
  DECODE_ALGORITHMS : option (list string);
  VERIFY_SIGNATURE : bool;
  VERIFY_EXPIRATION : bool;
  EXPIRATION_LEEWAY : Z;
  KEY_STORE_ROOT : option string;
  VERIFY_SESSION_TOKEN : bool
}.

(** The [options] dictionary handed to [jwt.decode]. *)
Record decode_options : Type := {
  verify_exp : bool;
  verify_aud : bool;
  verify_iss : bool
}.

(** The libraries the module calls: [six], [os.path] and [open], the PEM
    loaders of [cryptography] and the [jwt] package.  [jwt_encode] is the
    serialising and signing that [jwt.encode] does once it has rewritten
    the time claims of its argument (see [jwt_int_dates] below); it takes
    the payload as rewritten.  [jwt_decode] takes the arguments of the
    verifying call of line 114 and the reading of the clock the library
    takes for the time claims. *)
Class Externals : Type := {
  token : Type;
  private_key : Type;
  public_key : Type;
  str_of : value -> string;
  os_path_abspath : string -> string;
  os_path_join : string -> string -> string;
  open_read : string -> result string;
  load_pem_private_key : string -> result private_key;
  load_pem_public_key : string -> result public_key;
  jwt_encode : gmap string value -> private_key -> string ->
               gmap string value -> result token;
  jwt_get_unverified_header : token -> result (gmap string value);
  jwt_decode_unverified : token -> result (gmap string value);
  jwt_decode : token -> public_key -> bool -> list string -> decode_options ->
               Z -> option string -> string -> Z -> result (gmap string value)
}.

(** A user record and the two queries of [authenticate_payload] on the
    datastore: the user of the active session with a given primary key and
    user id, and the user with a given primary key; [None] is
    [DoesNotExist]. *)
Record User : Type := {
  user_pk : value;
  user_email : value;
  is_active : bool
}.

Record SessionToken : Type := {
  session_pk : value
}.

Class Datastore : Type := {
  active_session_user : value -> value -> option User;
  get_user : value -> option User
}.

(** ** State and effects *)

Inductive event : Type :=
| EvUtcNow
| EvUnverifiedHeader
| EvUnverifiedDecode
| EvReadFile (path : string)
| EvLoadPrivateKey
| EvLoadPublicKey
| EvJwtEncode
| EvJwtDecode.

(** The part of the world a call can observe or change: the dictionary
    objects on the heap (by reference), the successive readings of the
    clock, and the log of the external calls made so far. *)
Record State : Type := mkState {
  heap : gmap nat (gmap string value);
  clock : nat -> Z;
  reads : nat;
  trace : list event
}.

Definition M (A : Type) : Type := State -> result A * State.

Definition ret {A} (a : A) : M A := fun s => (Ok a, s).

Definition raise {A} (e : exn) : M A := fun s => (Raise e, s).

Definition bind {A B} (m : M A) (f : A -> M B) : M B :=
  fun s =>
    match m s with
    | (Ok a, s') => f a s'
    | (Raise e, s') => (Raise e, s')
    end.

#[global] Instance M_ret : MRet M := @ret.
#[global] Instance M_bind : MBind M := fun A B f m => bind m f.

(** The dictionary a reference points to. *)
Definition deref (s : State) (r : nat) : gmap string value :=
  default ∅ (heap s !! r).

(** The state once an external call has been logged, once the clock has
    been read, and once [d[k] = v] has updated the object behind [r] in
    place. *)
Definition logged (ev : event) (s : State) : State :=
  {| heap := heap s; clock := clock s; reads := reads s;
     trace := trace s ++ [ev] |}.

Definition ticked (s : State) : State :=
  {| heap := heap s; clock := clock s; reads := S (reads s);
     trace := trace s |}.

Definition set_claim (r : nat) (k : string) (v : value) (s : State) : State :=
  {| heap := <[r := <[k := v]> (deref s r)]> (heap s);
     clock := clock s; reads := reads s; trace := trace s |}.

(** An external call: logged, then its outcome. *)
Definition call {A} (ev : event) (r : result A) : M A :=
  fun s => (r, logged ev s).

(** A reading of the clock. *)
Definition tick : M Z :=
  fun s => (Ok (clock s (reads s)), ticked s).

(** [datetime.utcnow()]. *)
Definition utcnow : M Z := call EvUtcNow (Ok tt) ;; tick.

(** [d.get(k)] on the object behind [r]. *)
Definition get (r : nat) (k : string) : M value :=
  fun s => (Ok (dict_get (deref s r) k), s).

(** [d[k]]. *)
Definition getitem (r : nat) (k : string) : M value :=
  fun s =>
    match deref s r !! k with
    | Some v => (Ok v, s)
    | None => (Raise (OtherError "KeyError"), s)
    end.

(** [d[k] = v]. *)
Definition setitem (r : nat) (k : string) (v : value) : M unit :=
  fun s => (Ok tt, set_claim r k v s).

Definition opt_value (o : option string) : value :=
  match o with
  | Some s => VStr s
  | None => VNone
  end.

(** ** What [jwt.encode] does to its argument

    The module needs the 1.x line of the [jwt] package: it decodes the
    bytes [jwt.encode] returns and passes [verify] to [jwt.decode].  In
    that line [jwt.encode] begins by rewriting the dictionary it is given,
    in place: for each of the claims "exp", "iat" and "nbf", a value that
    is a [datetime] is replaced by its integer timestamp; only then is the
    dictionary serialised and signed.  The caller's dictionary keeps the
    integers, whether or not the rest of the call succeeds. *)

Definition jwt_time_claims : list string := ["exp"; "iat"; "nbf"].

Definition jwt_int_date (k : string) (v : value) : value :=
  match v with
  | VDatetime t => if existsb (String.eqb k) jwt_time_claims then VInt t else v
  | _ => v
  end.

Definition jwt_int_dates (payload : gmap string value) : gmap string value :=
  map_imap (fun k v => Some (jwt_int_date k v)) payload.

(** The state once [jwt.encode] has rewritten the object behind [r]. *)
Definition int_dated (r : nat) (s : State) : State :=
  {| heap := <[r := jwt_int_dates (deref s r)]> (heap s);
     clock := clock s; reads := reads s; trace := trace s |}.

(** ** The functions of [utils.py] *)

Section Utils.
Context `{Claims} `{Settings} `{Externals}.

(** [six.text_type(v)]: a text is itself, anything else is printed. *)
Definition text_type (v : value) : string :=
  match v with
  | VStr s => s
  | _ => str_of v
  end.

(** [create_session_payload] (lines 23-29). *)
Definition create_session_payload (session_token : SessionToken) (user : User)
    : gmap string value :=
  <[EMAIL := user_email user]>
    (<[USER_ID := user_pk user]>
       (<[SESSION_ID := session_pk session_token]>
          (<[TOKEN := VStr TOKEN_SESSION]> ∅))).

(** [create_authorization_payload] (lines 32-39). *)
Definition create_authorization_payload (session_token : SessionToken)
    (user : User) : gmap string value :=
  <[SCOPES := VList []]>
    (<[EMAIL := user_email user]>
       (<[USER_ID := user_pk user]>
          (<[SESSION_ID := session_pk session_token]>
             (<[TOKEN := VStr TOKEN_AUTHORIZATION]> ∅)))).

(** [read_key_file] (lines 137-142). *)
Definition key_file_path (file_name : string) : string :=
  match KEY_STORE_ROOT with
  | Some root =>
      if negb (String.eqb root "")
      then os_path_abspath (os_path_join root file_name)
      else os_path_abspath file_name
  | None => os_path_abspath file_name
  end.

Definition read_key_file (file_name : string) : M string :=
  let file_path := key_file_path file_name in
  call (EvReadFile file_path) (open_read file_path).

Definition lift {A} (r : result A) : M A := fun s => (r, s).

(** [get_private_key_and_key_id] (lines 166-170). *)
Definition get_private_key_and_key_id (issuer : string) (key_id : option string)
    : M (private_key * string) :=
  file_name ← lift (get_key_file_name PRIVATE_KEYS issuer key_id);
  file_data ← read_key_file file_name;
  key ← call EvLoadPrivateKey (load_pem_private_key file_data);
  ret (key, get_key_id file_name).

(** [get_public_key_and_key_id] (lines 173-177). *)
Definition get_public_key_and_key_id (issuer : string) (key_id : option string)
    : M (public_key * string) :=
  file_name ← lift (get_key_file_name PUBLIC_KEYS issuer key_id);
  file_data ← read_key_file file_name;
  key ← call EvLoadPublicKey (load_pem_public_key file_data);
  ret (key, get_key_id file_name).

(** [x not in (claims.TOKEN_SESSION, claims.TOKEN_AUTHORIZATION)] *)
Definition unknown_token_type (x : value) : bool :=
  negb (py_eq x (VStr TOKEN_SESSION) || py_eq x (VStr TOKEN_AUTHORIZATION)).

(** [encode_jwt_token(payload)] (lines 42-86), block by block; [payload]
    is a reference to the caller's dictionary. *)

(** Lines 43-44. *)
Definition encode_check_type (payload : nat) : M unit :=
  t ← get payload TOKEN;
  if unknown_token_type t then raise (RuntimeError "Unknown token type")
  else ret tt.

(** Lines 46-50. *)
Definition encode_default_issuer (payload : nat) : M unit :=
  iss ← get payload ISSUER;
  if negb (truthy iss) then
    match IDENTITY with
    | Some own => setitem payload ISSUER (VStr own)
    | None => raise (RuntimeError "IDENTITY must be specified in settings")
    end
  else ret tt.

(** Lines 52-60. *)
Definition encode_default_audience (payload : nat) : M unit :=
  aud ← get payload AUDIENCE;
  if negb (truthy aud) then
    t ← get payload TOKEN;
    match py_eq t (VStr TOKEN_SESSION), SESSION_AUDIENCE with
    | true, Some a => setitem payload AUDIENCE a
    | _, _ =>
        match py_eq t (VStr TOKEN_AUTHORIZATION), AUTHORIZATION_AUDIENCE with
        | true, Some a => setitem payload AUDIENCE a
        | _, _ =>
            match IDENTITY with
            | Some own => setitem payload AUDIENCE (VList [VStr own])
            | None =>
                raise (RuntimeError "SESSION_AUDIENCE must be specified in settings")
            end
        end
    end
  else ret tt.

(** Lines 62-66. *)
Definition encode_default_expiration (payload : nat) : M unit :=
  exp ← get payload EXPIRATION_TIME;
  if negb (truthy exp) then
    t ← get payload TOKEN;
    match py_eq t (VStr TOKEN_SESSION), SESSION_EXPIRATION with
    | true, Some ttl =>
        now ← utcnow;
        setitem payload EXPIRATION_TIME (VDatetime (now + ttl))
    | _, _ =>
        match py_eq t (VStr TOKEN_AUTHORIZATION), AUTHORIZATION_EXPIRATION with
        | true, Some ttl =>
            now ← utcnow;
            setitem payload EXPIRATION_TIME (VDatetime (now + ttl))
        | _, _ => ret tt
        end
    end
  else ret tt.

(** Lines 68-69. *)
Definition encode_default_issued_at (payload : nat) : M unit :=
  iat ← get payload ISSUED_AT;
  if negb (truthy iat) then
    now ← utcnow;
    setitem payload ISSUED_AT (VDatetime now)
  else ret tt.

(** [jwt.encode(payload, key, algorithm, headers)] on the caller's
    dictionary (lines 80-86): the library rewrites the time claims of the
    dictionary in place, then serialises and signs it. *)
Definition jwt_encode_in_place (payload : nat) (key : private_key)
    (algorithm : string) (headers : gmap string value) : M token :=
  fun s =>
    let s1 := int_dated payload s in
    (jwt_encode (deref s1 payload) key algorithm headers, logged EvJwtEncode s1).

(** Lines 71-86.  [PRIVATE_KEYS] is keyed by text: a list is not
    hashable, and no other value that is not a text is one of its keys. *)
Definition encode_sign (payload : nat) : M token :=
  issuer ← getitem payload ISSUER;
  match issuer with
  | VStr issuer =>
      if bool_decide (is_Some (PRIVATE_KEYS !! issuer)) then
        '(private_key, key_id) ← get_private_key_and_key_id issuer None;
        let headers : gmap string value := {[ KEY_ID := VStr key_id ]} in
        jwt_encode_in_place payload private_key ENCODE_ALGORITHM headers
      else
        raise (RuntimeError "Private key for specified issuer was not found in settings")
  | VList _ => raise (TypeError "unhashable type: 'list'")
  | _ =>
      raise (RuntimeError "Private key for specified issuer was not found in settings")
  end.

Definition encode_jwt_token (payload : nat) : M token :=
  encode_check_type payload ;;
  encode_default_issuer payload ;;
  encode_default_audience payload ;;
  encode_default_expiration payload ;;
  encode_default_issued_at payload ;;
  encode_sign payload.

(** Lines 90-123 of [decode_jwt_token]: the unverified peek, the
    allow-list, the key resolution and the verifying call. *)
Definition decode_jwt_token_verified (tok : token) : M (gmap string value) :=
  unverified_header ← call EvUnverifiedHeader (jwt_get_unverified_header tok);
  unverified_claims ← call EvUnverifiedDecode (jwt_decode_unverified tok);
  let unverified_key_id :=
    if truthy (dict_get unverified_header KEY_ID)
    then Some (text_type (dict_get unverified_header KEY_ID))
    else None in
  match unverified_claims !! ISSUER with
  | None => raise (MissingRequiredClaimError ISSUER)
  | Some iss =>
      let unverified_issuer := text_type iss in
      (match ACCEPTED_ISSUERS with
       | Some accepted =>
           if negb (existsb (String.eqb unverified_issuer) accepted)
           then raise (InvalidIssuerError "Invalid issuer")
           else ret tt
       | None => ret tt
       end) ;;
      '(public_key, key_id) ←
        get_public_key_and_key_id unverified_issuer unverified_key_id;
      let options :=
        {| verify_exp := VERIFY_EXPIRATION; verify_aud := true;
           verify_iss := true |} in
      let algorithms :=
        match DECODE_ALGORITHMS with
        | Some (a :: l) => a :: l
        | _ => [ENCODE_ALGORITHM]
        end in
      now ← tick;
      call EvJwtDecode
        (jwt_decode tok public_key VERIFY_SIGNATURE algorithms options
           EXPIRATION_LEEWAY IDENTITY unverified_issuer now)
  end.

(** Lines 125-134 of [decode_jwt_token]: the checks on the verified
    payload. *)
Definition decode_jwt_token_checks (payload : gmap string value)
    : result (gmap string value) :=
  if unknown_token_type (dict_get payload TOKEN) then
    Raise (InvalidTokenError "Unknown token type")
  else if negb (py_eq (dict_get payload ISSUER) (opt_value IDENTITY))
          && negb (py_eq (dict_get payload TOKEN) (VStr TOKEN_AUTHORIZATION)) then
    Raise (InvalidTokenError "Only authorization tokens are accepted from other issuers")
  else if negb (truthy (dict_get payload SESSION_ID)) then
    Raise (MissingRequiredClaimError "Session ID is missing.")
  else if negb (truthy (dict_get payload USER_ID)) then
    Raise (MissingRequiredClaimError "User ID is missing.")
  else Ok payload.

(** [decode_jwt_token(token)] (lines 89-134). *)
Definition decode_jwt_token (tok : token) : M (gmap string value) :=
  payload ← decode_jwt_token_verified tok;
  lift (decode_jwt_token_checks payload).

(** [authenticate_payload(payload)] (lines 180-202). *)
Definition authenticate_payload `{Datastore} (payload : gmap string value)
    : result User :=
  let found :=
    if VERIFY_SESSION_TOKEN then
      match active_session_user (dict_get payload SESSION_ID)
              (dict_get payload USER_ID) with
      | Some user => Ok user
      | None => Raise (AuthenticationFailed "Invalid token.")
      end
    else
      match get_user (dict_get payload USER_ID) with
      | Some user => Ok user
      | None => Raise (AuthenticationFailed "Invalid token.")
      end in
  match found with
  | Ok user =>
      if negb (is_active user) then
        Raise (AuthenticationFailed "User inactive or deleted.")
      else Ok user
  | Raise e => Raise e
  end.

End Utils.

(** ** The contract of the [jwt] package *)

(** Values that a JSON encoding returns unchanged. *)
Fixpoint json_native (v : value) : bool :=
  match v with
  | VDatetime _ => false
  | VList l =>
      (fix all (l : list value) : bool :=
         match l with
         | [] => true
         | u :: l' => json_native u && all l'
         end) l
  | _ => true
  end.

(** The texts of a list of values, when all of them are texts. *)
Fixpoint texts_of (l : list value) : option (list string) :=
  match l with
  | [] => Some []
  | VStr s :: l' =>
      match texts_of l' with
      | Some r => Some (s :: r)
      | None => None
      end
  | _ :: _ => None
  end.

Section JwtContract.
Context `{Claims}.

(** The validation of the registered claims that the verifying call of
    line 114 asks of the library, in the order the library goes through
    them and under the names it knows them by: the time of issue and the
    not-before time against the clock with the leeway (the call leaves
    the library's [verify_iat] and [verify_nbf] switched on), the
    expiration likewise when [verify_exp] is set, the issuer against the
    expected one, the audience against the verifier's own.  The releases
    up to 1.6 reject a time of issue in the future, the later ones of the
    1.x line only one that is no integer; validity is meant here in the
    stricter sense. *)
Definition jwt_validate_claims (payload : gmap string value)
    (options : decode_options) (leeway : Z) (audience : option string)
    (issuer : string) (now : Z) : result unit :=
  let iat_check :=
    match payload !! "iat" with
    | Some (VInt i) =>
        if now + leeway <? i
        then Raise (InvalidIssuedAtError
                      "Issued At claim (iat) cannot be in the future.")
        else Ok tt
    | Some _ => Raise (DecodeError "Issued At claim (iat) must be an integer.")
    | None => Ok tt
    end in
  let nbf_check :=
    match payload !! "nbf" with
    | Some (VInt n) =>
        if now + leeway <? n
        then Raise (ImmatureSignatureError "The token is not yet valid (nbf)")
        else Ok tt
    | Some _ => Raise (DecodeError "Not Before claim (nbf) must be an integer.")
    | None => Ok tt
    end in
  let exp_check :=
    match payload !! "exp" with
    | Some (VInt e) =>
        if verify_exp options && (e <? now - leeway)
        then Raise (ExpiredSignatureError "Signature has expired")
        else Ok tt
    | Some _ =>
        if verify_exp options
        then Raise (DecodeError "Expiration Time claim (exp) must be an integer.")
        else Ok tt
    | None => Ok tt
    end in
  let iss_check :=
    if verify_iss options then
      match payload !! "iss" with
      | None => Raise (MissingRequiredClaimError "iss")
      | Some v =>
          if py_eq v (VStr issuer) then Ok tt
          else Raise (InvalidIssuerError "Invalid issuer")
      end
    else Ok tt in
  let aud_check :=
    if verify_aud options then
      match audience, payload !! "aud" with
      | None, None => Ok tt
      | Some _, None => Raise (MissingRequiredClaimError "aud")
      | None, Some _ => Raise (InvalidAudienceError "Invalid audience")
      | Some own, Some v =>
          let audience_claims :=
            match v with
            | VStr s => Some [s]
            | VList l => texts_of l
            | _ => None
            end in
          match audience_claims with
          | None => Raise (InvalidAudienceError "Invalid claim format in token")
          | Some l =>
              if existsb (String.eqb own) l then Ok tt
              else Raise (InvalidAudienceError "Invalid audience")
          end
      end
    else Ok tt in
  match iat_check with
  | Raise e => Raise e
  | Ok _ =>
      match nbf_check with
      | Raise e => Raise e
      | Ok _ =>
          match exp_check with
          | Raise e => Raise e
          | Ok _ =>
              match iss_check with
              | Raise e => Raise e
              | Ok _ => aud_check
              end
          end
      end
  end.

(** What the module relies on when a token it signed comes back: the
    header and the claims can be read back, and a token signed with the
    private key of a pair verifies under its public key whenever the
    algorithm is allowed and the registered claims are valid.  [wire] is
    the claim set as the token carries it; JSON-native values are carried
    as they are. *)
Record JwtLaws `{Externals} (keypair : private_key -> public_key -> Prop)
    (wire : gmap string value -> gmap string value) : Prop := {
  wire_native : forall body k,
    json_native (dict_get body k) = true -> wire body !! k = body !! k;
  header_of_encode : forall body key alg headers tok,
    jwt_encode body key alg headers = Ok tok ->
    exists h, jwt_get_unverified_header tok = Ok h
              /\ h !! KEY_ID = headers !! KEY_ID;
  claims_of_encode : forall body key alg headers tok,
    jwt_encode body key alg headers = Ok tok ->
    jwt_decode_unverified tok = Ok (wire body);
  decode_of_encode : forall body key alg headers tok pk verify algs opts
                            leeway aud iss now,
    jwt_encode body key alg headers = Ok tok ->
    keypair key pk ->
    In alg algs ->
    jwt_validate_claims (wire body) opts leeway aud iss now = Ok tt ->
    jwt_decode tok pk verify algs opts leeway aud iss now = Ok (wire body)
}.

(** The audience claim names the verifier: it is its identity, or a list
    of texts with its identity among them. *)
Definition audience_includes (v : value) (own : string) : bool :=
  match v with
  | VStr s => String.eqb own s
  | VList l =>
      match texts_of l with
      | Some names => existsb (String.eqb own) names
      | None => false
      end
  | _ => false
  end.

(** A time claim that must not lie ahead (the time of issue, the
    not-before time) is absent, or an integer that [now] with the leeway
    has reached. *)
Definition not_in_future (p : gmap string value) (k : string)
    (now leeway : Z) : bool :=
  match p !! k with
  | None => true
  | Some (VInt t) => t <=? now + leeway
  | Some _ => false
  end.

(** The expiration of a payload, if it has one, has not passed at [now]
    with the leeway, or is not verified. *)
Definition expiration_fresh (p : gmap string value) (verify : bool)
    (now leeway : Z) : bool :=
  match p !! EXPIRATION_TIME with
  | None => true
  | Some (VInt t) => negb verify || (now - leeway <=? t)
  | Some _ => negb verify
  end.

End JwtContract.

(** ** A concrete deployment

    Two services, [svc-a] and [svc-b], each with one key pair in the key
    store; a datastore of two users and one session; and a transparent
    stand-in for the [jwt] package: a token is its header, its claims as
    the wire carries them, the algorithm and the key that signed it. *)

Definition the_claims : Claims := {|
  TOKEN := "token";
  TOKEN_SESSION := "session";
  TOKEN_AUTHORIZATION := "authorization";
  SESSION_ID := "sid";
  USER_ID := "uid";
  EMAIL := "email";
  SCOPES := "scope";
  ISSUER := "iss";
  AUDIENCE := "aud";
  EXPIRATION_TIME := "exp";
  ISSUED_AT := "iat";
  KEY_ID := "kid"
|}.

Record plain_token : Type := {
  tk_header : gmap string value;
  tk_claims : gmap string value;
  tk_alg : string;
  tk_signer : string
}.

Definition plain_files : gmap string string :=
  {[ "/keys/svc-a.pem" := "key pair A"; "/keys/svc-b.pem" := "key pair B" ]}.

Definition plain_wire_value (k : string) (v : value) : value :=
  match v with
  | VDatetime t => if String.eqb k "exp" || String.eqb k "iat" then VInt t else v
  | _ => v
  end.

Definition plain_wire (body : gmap string value) : gmap string value :=
  map_imap (fun k v => Some (plain_wire_value k v)) body.

Definition plain_jwt_decode (tok : plain_token) (key : string) (verify : bool)
    (algorithms : list string) (options : decode_options) (leeway : Z)
    (audience : option string) (issuer : string) (now : Z)
    : result (gmap string value) :=
  if verify then
    if negb (existsb (String.eqb (tk_alg tok)) algorithms) then
      Raise (InvalidAlgorithmError "The specified alg value is not allowed")
    else if negb (String.eqb (tk_signer tok) key) then
      Raise (DecodeError "Signature verification failed")
    else
      match jwt_validate_claims (tk_claims tok) options leeway
              audience issuer now with
      | Ok _ => Ok (tk_claims tok)
      | Raise e => Raise e
      end
  else Ok (tk_claims tok).

Definition plain_externals : Externals := {|
  token := plain_token;
  private_key := string;
  public_key := string;
  str_of := fun v => match v with VNone => "None" | _ => "?" end;
  os_path_abspath := fun p => p;
  os_path_join := fun a b => a ++ "/" ++ b;
  open_read := fun path =>
    match plain_files !! path with
    | Some data => Ok data
    | None => Raise (IOError path)
    end;
  load_pem_private_key := fun data => Ok data;
  load_pem_public_key := fun data => Ok data;
  jwt_encode := fun body key alg headers =>
    Ok {| tk_header := <["alg" := VStr alg]> (<["typ" := VStr "JWT"]> headers);
          tk_claims := plain_wire body; tk_alg := alg; tk_signer := key |};
  jwt_get_unverified_header := fun tok => Ok (tk_header tok);
  jwt_decode_unverified := fun tok => Ok (tk_claims tok);
  jwt_decode := plain_jwt_decode
|}.

(** Service [svc-a]: session tokens for itself, authorization tokens for
    [svc-b], one hour of validity for both. *)
Definition svc_a : Settings := {|
  IDENTITY := Some "svc-a";
  SESSION_AUDIENCE := Some (VList [VStr "svc-a"]);
  AUTHORIZATION_AUDIENCE := Some (VList [VStr "svc-b"]);
  SESSION_EXPIRATION := Some 3600;
  AUTHORIZATION_EXPIRATION := Some 3600;
  ACCEPTED_ISSUERS := Some ["svc-a"; "svc-b"];
  PRIVATE_KEYS := {[ "svc-a" := KeyStr "svc-a.pem" ]};
  PUBLIC_KEYS := {[ "svc-a" := KeyStr "svc-a.pem"; "svc-b" := KeyList ["svc-b.pem"] ]};
  ENCODE_ALGORITHM := "RS256";
  DECODE_ALGORITHMS := None;
  VERIFY_SIGNATURE := true;
  VERIFY_EXPIRATION := true;
  EXPIRATION_LEEWAY := 0;
  KEY_STORE_ROOT := Some "/keys";
  VERIFY_SESSION_TOKEN := true
|}.

(** The same service with no audience and no validity configured. *)
Definition svc_a_bare : Settings := {|
  IDENTITY := Some "svc-a";
  SESSION_AUDIENCE := None;
  AUTHORIZATION_AUDIENCE := None;
  SESSION_EXPIRATION := None;
  AUTHORIZATION_EXPIRATION := None;
  ACCEPTED_ISSUERS := None;
  PRIVATE_KEYS := {[ "svc-a" := KeyStr "svc-a.pem" ]};
  PUBLIC_KEYS := {[ "svc-a" := KeyStr "svc-a.pem" ]};
  ENCODE_ALGORITHM := "RS256";
  DECODE_ALGORITHMS := None;
  VERIFY_SIGNATURE := true;
  VERIFY_EXPIRATION := true;
  EXPIRATION_LEEWAY := 0;
  KEY_STORE_ROOT := Some "/keys";
  VERIFY_SESSION_TOKEN := false
|}.

Definition alice : User :=
  {| user_pk := VInt 1; user_email := VStr "alice@example.org"; is_active := true |}.

Definition bob : User :=
  {| user_pk := VInt 2; user_email := VStr "bob@example.org"; is_active := false |}.

Definition session_7 : SessionToken := {| session_pk := VInt 7 |}.

Definition plain_datastore : Datastore := {|
  active_session_user := fun pk user_id =>
    if py_eq pk (VInt 7) && py_eq user_id (VInt 1) then Some alice
    else if py_eq pk (VInt 8) && py_eq user_id (VInt 2) then Some bob
    else None;
  get_user := fun pk =>
    if py_eq pk (VInt 1) then Some alice
    else if py_eq pk (VInt 2) then Some bob
    else None
|}.

(** A session payload and an authorization payload for Alice, and the
    session payload with the issuer set to the other service. *)
Definition session_payload : gmap string value :=
  @create_session_payload the_claims session_7 alice.

Definition authorization_payload : gmap string value :=
  @create_authorization_payload the_claims session_7 alice.

Definition foreign_session_payload : gmap string value :=
  <["iss" := VStr "svc-b"]> session_payload.

(** Tokens as they reach [svc-a]: one from an issuer that is not on the
    allow-list, a session token signed by [svc-b], and a session token of
    its own whose session id is zero. *)
Definition plain_token_of (claims : gmap string value) (key_id signer : string)
    : plain_token :=
  {| tk_header := {[ "kid" := VStr key_id; "alg" := VStr "RS256" ]};
     tk_claims := claims; tk_alg := "RS256"; tk_signer := signer |}.

Definition unlisted_token : plain_token :=
  plain_token_of
    {[ "token" := VStr "authorization"; "iss" := VStr "svc-x";
       "aud" := VStr "svc-a"; "sid" := VInt 7; "uid" := VInt 1 ]}
    "svc-x" "key pair X".

Definition foreign_session_token : plain_token :=
  plain_token_of
    {[ "token" := VStr "session"; "iss" := VStr "svc-b";
       "aud" := VStr "svc-a"; "sid" := VInt 7; "uid" := VInt 1 ]}
    "svc-b" "key pair B".

Definition zero_session_token : plain_token :=
  plain_token_of
    {[ "token" := VStr "session"; "iss" := VStr "svc-a";
       "aud" := VStr "svc-a"; "sid" := VInt 0; "uid" := VInt 1 ]}
    "svc-a" "key pair A".

(** Further tokens as they reach [svc-a]: one with no issuer claim, one
    from [svc-b] under a key identifier [svc-a] has no reference for, and a
    session token of its own. *)
Definition anonymous_token : plain_token :=
  plain_token_of
    {[ "token" := VStr "session"; "aud" := VStr "svc-a";
       "sid" := VInt 7; "uid" := VInt 1 ]}
    "svc-a" "key pair A".

Definition rotated_token : plain_token :=
  plain_token_of
    {[ "token" := VStr "authorization"; "iss" := VStr "svc-b";
       "aud" := VStr "svc-a"; "sid" := VInt 7; "uid" := VInt 1 ]}
    "svc-b-2019" "key pair B2".

Definition own_session_token : plain_token :=
  plain_token_of
    {[ "token" := VStr "session"; "iss" := VStr "svc-a";
       "aud" := VStr "svc-a"; "sid" := VInt 7; "uid" := VInt 1 ]}
    "svc-a" "key pair A".

(** A verifier that lists two public keys of [svc-b], a retired one first,
    and a token of [svc-b] signed with the current one. *)
Definition svc_b_verifier : Settings := {|
  IDENTITY := Some "svc-a";
  SESSION_AUDIENCE := None;
  AUTHORIZATION_AUDIENCE := None;
  SESSION_EXPIRATION := None;
  AUTHORIZATION_EXPIRATION := None;
  ACCEPTED_ISSUERS := None;
  PRIVATE_KEYS := ∅;
  PUBLIC_KEYS := {[ "svc-b" := KeyList ["svc-b-2018.pem"; "svc-b.pem"] ]};
  ENCODE_ALGORITHM := "RS256";
  DECODE_ALGORITHMS := Some ["RS256"; "RS512"];
  VERIFY_SIGNATURE := true;
  VERIFY_EXPIRATION := true;
  EXPIRATION_LEEWAY := 0;
  KEY_STORE_ROOT := Some "/keys";
  VERIFY_SESSION_TOKEN := true
|}.

Definition second_key_token : plain_token :=
  plain_token_of
    {[ "token" := VStr "authorization"; "iss" := VStr "svc-b";
       "aud" := VStr "svc-a"; "sid" := VInt 7; "uid" := VInt 1 ]}
    "svc-b" "key pair B".

(** Service [svc-b], which holds the public key of [svc-a] and accepts its
    tokens. *)
Definition svc_b : Settings := {|
  IDENTITY := Some "svc-b";
  SESSION_AUDIENCE := Some (VList [VStr "svc-b"]);
  AUTHORIZATION_AUDIENCE := Some (VList [VStr "svc-a"]);
  SESSION_EXPIRATION := Some 3600;
  AUTHORIZATION_EXPIRATION := Some 3600;
  ACCEPTED_ISSUERS := Some ["svc-a"; "svc-b"];
  PRIVATE_KEYS := {[ "svc-b" := KeyStr "svc-b.pem" ]};
  PUBLIC_KEYS := {[ "svc-a" := KeyStr "svc-a.pem"; "svc-b" := KeyStr "svc-b.pem" ]};
  ENCODE_ALGORITHM := "RS256";
  DECODE_ALGORITHMS := None;
  VERIFY_SIGNATURE := true;
  VERIFY_EXPIRATION := true;
  EXPIRATION_LEEWAY := 0;
  KEY_STORE_ROOT := Some "/keys";
  VERIFY_SESSION_TOKEN := true
|}.

(** The session payload with an audience that names both services, and
    with a not-before time set by the caller. *)
Definition shared_session_payload : gmap string value :=
  <["aud" := VList [VStr "svc-a"; VStr "svc-b"]]> session_payload.

Definition embargoed_session_payload : gmap string value :=
  <["nbf" := VDatetime 10]> session_payload.

(** A token of [svc-a]'s own of no known type whose session id is zero. *)
Definition untyped_token : plain_token :=
  plain_token_of
    {[ "token" := VStr "refresh"; "iss" := VStr "svc-a";
       "aud" := VStr "svc-a"; "sid" := VInt 0; "uid" := VInt 1 ]}
    "svc-a" "key pair A".

(** A world whose clock starts at [t0] and advances a second per reading,
    holding one dictionary at reference 0. *)
Definition world (t0 : Z) (payload : gmap string value) : State :=
  {| heap := {[ 0%nat := payload ]};
     clock := fun n => t0 + Z.of_nat n;
     reads := 0;
     trace := [] |}.

(** The three ways a verified payload fails to yield an active user. *)
Inductive failure_cause : Type :=
| UnknownSession
| UnknownUser
| InactiveUser.

Section Causes.
Context `{Claims} `{Settings} `{Datastore}.

(** The record the configured lookup path of [authenticate_payload]
    finds for a payload. *)
Definition looked_up (payload : gmap string value) : option User :=
  if VERIFY_SESSION_TOKEN
  then active_session_user (dict_get payload SESSION_ID) (dict_get payload USER_ID)
  else get_user (dict_get payload USER_ID).

Definition has_cause (payload : gmap string value) (c : failure_cause) : Prop :=
  match c with
  | UnknownSession => VERIFY_SESSION_TOKEN = true /\ looked_up payload = None
  | UnknownUser => VERIFY_SESSION_TOKEN = false /\ looked_up payload = None
  | InactiveUser => exists user, looked_up payload = Some user /\ is_active user = false
  end.

End Causes.

(** The detail text each cause is reported with. *)
Definition detail_of (c : failure_cause) : string :=
  match c with
  | UnknownSession | UnknownUser => "Invalid token."
  | InactiveUser => "User inactive or deleted."
  end.

(** ** Views of [encode_jwt_token] used in the proofs *)

Section Tails.
Context `{Claims} `{Settings} `{Externals}.

(** The rest of [encode_jwt_token] from each block on. *)
Definition tail_iat (r : nat) : M token :=
  encode_default_issued_at r ;; encode_sign r.
Definition tail_exp (r : nat) : M token :=
  encode_default_expiration r ;; tail_iat r.
Definition tail_aud (r : nat) : M token :=
  encode_default_audience r ;; tail_exp r.
Definition tail_iss (r : nat) : M token :=
  encode_default_issuer r ;; tail_aud r.

End Tails.

(** ** Views of [decode_jwt_token] used in the proofs *)

Section Peek.
Context `{Claims} `{Settings} `{Externals}.

(** The key identifier read from an unverified header. *)
Definition header_key_id (header : gmap string value) : option string :=
  if truthy (dict_get header KEY_ID)
  then Some (text_type (dict_get header KEY_ID))
  else None.

(** The algorithms the verifying call allows. *)
Definition allowed_algorithms : list string :=
  match DECODE_ALGORITHMS with
  | Some (a :: l) => a :: l
  | _ => [ENCODE_ALGORITHM]
  end.

End Peek.

(** ** The defaults, read off the payload *)

Section Defaults.
Context `{Claims} `{Settings}.

(** The issuer a payload ends up with after lines 46-50, if any. *)
Definition final_issuer (p : gmap string value) : option value :=
  if truthy (dict_get p ISSUER) then Some (dict_get p ISSUER)
  else VStr <$> IDENTITY.

(** The audience a payload ends up with after lines 52-60, if any. *)
Definition final_audience (p : gmap string value) : option value :=
  if truthy (dict_get p AUDIENCE) then Some (dict_get p AUDIENCE)
  else
    match py_eq (dict_get p TOKEN) (VStr TOKEN_SESSION), SESSION_AUDIENCE with
    | true, Some a => Some a
    | _, _ =>
        match py_eq (dict_get p TOKEN) (VStr TOKEN_AUTHORIZATION),
              AUTHORIZATION_AUDIENCE with
        | true, Some a => Some a
        | _, _ => (fun own => VList [VStr own]) <$> IDENTITY
        end
    end.

(** The validity lines 62-66 add to the clock for a payload, if they set
    an expiration at all. *)
Definition expiration_ttl (p : gmap string value) : option Z :=
  if truthy (dict_get p EXPIRATION_TIME) then None
  else
    match py_eq (dict_get p TOKEN) (VStr TOKEN_SESSION), SESSION_EXPIRATION with
    | true, Some ttl => Some ttl
    | _, _ =>
        match py_eq (dict_get p TOKEN) (VStr TOKEN_AUTHORIZATION),
              AUTHORIZATION_EXPIRATION with
        | true, Some ttl => Some ttl
        | _, _ => None
        end
    end.

(** A payload extended with the defaulted claims: the issuer [v], the
    audience [a], the expiration when a validity applies and the time of
    issue when there is none yet, the two times being successive readings
    of the clock [now] from reading [n] on. *)
Definition with_defaults (p : gmap string value) (v a : value)
    (now : nat -> Z) (n : nat) : gmap string value :=
  let p2 := <[AUDIENCE := a]> (<[ISSUER := v]> p) in
  match expiration_ttl p with
  | Some ttl =>
      let p3 := <[EXPIRATION_TIME := VDatetime (now n + ttl)]> p2 in
      if truthy (dict_get p ISSUED_AT) then p3
      else <[ISSUED_AT := VDatetime (now (S n))]> p3
  | None =>
      if truthy (dict_get p ISSUED_AT) then p2
      else <[ISSUED_AT := VDatetime (now n)]> p2
  end.

(** The readings of the clock the defaults of a payload take. *)
Definition readings (p : gmap string value) : nat :=
  ((match expiration_ttl p with Some _ => 1 | None => 0 end)
   + (if truthy (dict_get p ISSUED_AT) then 0 else 1))%nat.

End Defaults.

(** ** The signing step, read off the payload *)

Section Signing.
Context `{Claims} `{Settings} `{Externals}.

(** The key and the key identifier lines 71-74 come to for a payload. *)
Definition signing_key (p : gmap string value) : result (private_key * string) :=
  match p !! ISSUER with
  | None => Raise (OtherError "KeyError")
  | Some (VStr issuer) =>
      if bool_decide (is_Some (PRIVATE_KEYS !! issuer)) then
        match get_key_file_name PRIVATE_KEYS issuer None with
        | Raise e => Raise e
        | Ok file_name =>
            match open_read (key_file_path file_name) with
            | Raise e => Raise e
            | Ok data =>
                match load_pem_private_key data with
                | Raise e => Raise e
                | Ok key => Ok (key, get_key_id file_name)
                end
            end
        end
      else
        Raise (RuntimeError
                 "Private key for specified issuer was not found in settings")
  | Some (VList _) => Raise (TypeError "unhashable type: 'list'")
  | Some _ =>
      Raise (RuntimeError
               "Private key for specified issuer was not found in settings")
  end.

(** The outcome of lines 71-86 for a payload: the failure to get the key,
    or what the library makes of the payload once its time claims are
    integers. *)
Definition signed (p : gmap string value) : result token :=
  match signing_key p with
  | Raise e => Raise e
  | Ok (key, key_id) =>
      jwt_encode (jwt_int_dates p) key ENCODE_ALGORITHM {[ KEY_ID := VStr key_id ]}
  end.


(** The dictionary lines 71-86 leave behind: untouched when no key was
    got, rewritten by the library once it was called. *)
Definition after_signing (p : gmap string value) : gmap string value :=
  match signing_key p with
  | Raise _ => p
  | Ok _ => jwt_int_dates p
  end.

End Signing.

(** * Properties *)

(** ** Key resolution *)

Example get_key_id_pem : get_key_id "svc-2018.PEM" = "svc-2018".
Proof. reflexivity. Qed.

Example get_key_id_plain : get_key_id "svc.key" = "svc.key".
Proof. reflexivity. Qed.

Example get_key_file_name_ex :
  get_key_file_name {[ "svc" := KeyList ["old.pem"; "new.pem"] ]} "svc" (Some "new")
  = Ok "new.pem".
Proof. vm_compute. reflexivity. Qed.


Lemma key_id_matches_spec key_id ik :
  key_id_matches key_id ik = true <-> ik = key_id \/ get_key_id ik = key_id.
Proof.
  unfold key_id_matches. rewrite orb_true_iff, !String.eqb_eq. intuition congruence.
Qed.

(** The first element a filter keeps, and what comes before it. *)
Lemma filter_first {A} (f : A -> bool) (l : list A) :
  (List.filter f l = [] /\ forall x, In x l -> f x = false)
  \/ exists pre x post,
       l = (pre ++ x :: post)%list /\ f x = true
       /\ (forall y, In y pre -> f y = false)
       /\ List.filter f l = x :: List.filter f post.
Proof.
  induction l as [|a l IH]; simpl.
  - left. split; [reflexivity | intros x []].
  - destruct (f a) eqn:Ha.
    + right. exists [], a, l. simpl. repeat split; auto. intros y [].
    + destruct IH as [[Hnil Hall] | (pre & x & post & -> & Hx & Hpre & Hf)].
      * left. split; [assumption |]. intros x [<- | Hin]; auto.
      * right. exists (a :: pre), x, post. simpl. repeat split; auto.
        intros y [<- | Hin]; auto.
Qed.

(** C3, as the code has it: with a non-empty [key_id] the resolver keeps
    the candidate references that equal [key_id] verbatim or whose derived
    identifier equals it; it fails with "No key matches the given key_id"
    when no candidate is kept and returns the first kept candidate
    otherwise. *)
Theorem get_key_file_name_with_key_id keys issuer key_id :
  key_refs_truthy (keys !! issuer) = true ->
  key_id_truthy (Some key_id) = true ->
  let candidates := key_refs_list (keys !! issuer) in
  (get_key_file_name keys issuer (Some key_id)
     = Raise (InvalidKeyError "No key matches the given key_id")
   /\ forall ik, In ik candidates -> ik <> key_id /\ get_key_id ik <> key_id)
  \/ exists pre first post,
       candidates = (pre ++ first :: post)%list
       /\ (first = key_id \/ get_key_id first = key_id)
       /\ (forall ik, In ik pre -> ik <> key_id /\ get_key_id ik <> key_id)
       /\ get_key_file_name keys issuer (Some key_id) = Ok first.
Proof.
  intros Hrefs Hkid candidates. unfold get_key_file_name.
  rewrite Hrefs, Hkid. simpl. fold candidates.
  assert (Hno : forall ik, key_id_matches key_id ik = false ->
                           ik <> key_id /\ get_key_id ik <> key_id).
  { intros ik Hik. split; intros Heq;
      assert (key_id_matches key_id ik = true) by (apply key_id_matches_spec; auto);
      congruence. }
  destruct (filter_first (key_id_matches key_id) candidates)
    as [[Hnil Hall] | (pre & x & post & Hsplit & Hx & Hpre & Hf)].
  - left. rewrite Hnil. split; [reflexivity |]. intros ik Hin. auto.
  - right. exists pre, x, post. rewrite Hf.
    repeat split; auto.
    + apply key_id_matches_spec. assumption.
    + apply Hno, Hpre. assumption.
    + apply Hno, Hpre. assumption.
Qed.

Lemma get_key_file_name_with_key_id_witness :
  let keys : gmap string key_refs := {[ "svc" := KeyList ["old.pem"; "new.pem"] ]} in
  key_refs_truthy (keys !! "svc") = true
  /\ key_id_truthy (Some "new") = true
  /\ get_key_file_name keys "svc" (Some "new") = Ok "new.pem".
Proof.
  intros keys. split; [reflexivity | split; [reflexivity |]].
  destruct (get_key_file_name_with_key_id keys "svc" "new" eq_refl eq_refl)
    as [[_ Hnone] | (pre & first & post & _ & _ & _ & Hres)].
  - exfalso. destruct (Hnone "new.pem") as [_ Hid].
    + right. left. reflexivity.
    + apply Hid. reflexivity.
  - vm_compute. reflexivity.
Defined.

(** C3, as the specification words it, fails: a candidate that equals the
    requested identifier verbatim is kept although its derived identifier
    differs. *)
Lemma get_key_file_name_keeps_verbatim_match :
  let keys : gmap string key_refs := {[ "svc" := KeyList ["a.pem"] ]} in
  get_key_id "a.pem" <> "a.pem"
  /\ spec_get_key_file_name keys "svc" "a.pem"
     = Raise (InvalidKeyError "No key matches the given key_id")
  /\ get_key_file_name keys "svc" (Some "a.pem") = Ok "a.pem".
Proof.
  intros keys. split; [discriminate |]. split; vm_compute; reflexivity.
Qed.

(** ** Identity resolution *)

(** C6, as the code has it: whichever lookup path is configured, an unknown
    session, an unknown user and an inactive user are all rejected with an
    [AuthenticationFailed] error; the first two carry the detail
    "Invalid token.", the inactive user the detail
    "User inactive or deleted.". *)
Theorem authenticate_payload_failure `{Claims} `{Settings} `{Datastore}
    (payload : gmap string value) (c : failure_cause) :
  has_cause payload c ->
  authenticate_payload payload = Raise (AuthenticationFailed (detail_of c)).
Proof.
  unfold has_cause, looked_up, authenticate_payload.
  destruct c.
  - intros [-> Hnone]. rewrite Hnone. reflexivity.
  - intros [-> Hnone]. rewrite Hnone. reflexivity.
  - intros (user & Hsome & Hinactive).
    destruct VERIFY_SESSION_TOKEN; rewrite Hsome, Hinactive; reflexivity.
Qed.

Lemma authenticate_payload_failure_witness :
  let payload : gmap string value := {[ "sid" := VInt 8; "uid" := VInt 2 ]} in
  @has_cause the_claims svc_a plain_datastore payload InactiveUser
  /\ @authenticate_payload the_claims svc_a plain_datastore payload
     = Raise (AuthenticationFailed "User inactive or deleted.").
Proof.
  intros payload.
  assert (Hc : @has_cause the_claims svc_a plain_datastore payload InactiveUser).
  { exists bob. split; reflexivity. }
  split; [exact Hc |].
  exact (@authenticate_payload_failure the_claims svc_a plain_datastore
           payload InactiveUser Hc).
Defined.

(** C6, as the specification words it, fails: the failure for an inactive
    user differs from the failure for an unknown one. *)
Lemma authenticate_payload_inactive_distinguished :
  let unknown : gmap string value := {[ "sid" := VInt 7; "uid" := VInt 99 ]} in
  let inactive : gmap string value := {[ "sid" := VInt 8; "uid" := VInt 2 ]} in
  @authenticate_payload the_claims svc_a_bare plain_datastore unknown
    = Raise (AuthenticationFailed "Invalid token.")
  /\ @authenticate_payload the_claims svc_a_bare plain_datastore inactive
    = Raise (AuthenticationFailed "User inactive or deleted.")
  /\ @authenticate_payload the_claims svc_a_bare plain_datastore unknown
    <> @authenticate_payload the_claims svc_a_bare plain_datastore inactive.
Proof.
  intros unknown inactive.
  split; [vm_compute; reflexivity |]. split; [vm_compute; reflexivity |].
  vm_compute. discriminate.
Qed.

(** ** Running the monad *)

Lemma bind_run {A B} (m : M A) (f : A -> M B) (s : State) :
  (m ≫= f) s
  = match m s with
    | (Ok a, s') => f a s'
    | (Raise e, s') => (Raise e, s')
    end.
Proof. reflexivity. Qed.

Lemma deref_set_claim r k v s :
  deref (set_claim r k v s) r = <[k := v]> (deref s r).
Proof. unfold deref, set_claim. simpl. rewrite lookup_insert_eq. reflexivity. Qed.

Lemma deref_logged ev s r : deref (logged ev s) r = deref s r.
Proof. reflexivity. Qed.

Lemma deref_ticked s r : deref (ticked s) r = deref s r.
Proof. reflexivity. Qed.

Lemma deref_int_dated s r : deref (int_dated r s) r = jwt_int_dates (deref s r).
Proof. unfold deref, int_dated. simpl. rewrite lookup_insert_eq. reflexivity. Qed.

(** ** The time claims as the library rewrites them *)

Lemma lookup_jwt_int_dates (p : gmap string value) k :
  jwt_int_dates p !! k = jwt_int_date k <$> p !! k.
Proof.
  unfold jwt_int_dates. rewrite map_lookup_imap.
  destruct (p !! k); reflexivity.
Qed.

Lemma dict_get_jwt_int_dates (p : gmap string value) k :
  dict_get (jwt_int_dates p) k = jwt_int_date k (dict_get p k).
Proof.
  unfold dict_get. rewrite lookup_jwt_int_dates.
  destruct (p !! k); reflexivity.
Qed.

Lemma jwt_int_date_native k v : json_native v = true -> jwt_int_date k v = v.
Proof. destruct v; try reflexivity. discriminate. Qed.

Lemma jwt_int_date_other k v :
  existsb (String.eqb k) jwt_time_claims = false -> jwt_int_date k v = v.
Proof.
  intros Hk. destruct v; try reflexivity. unfold jwt_int_date. rewrite Hk.
  reflexivity.
Qed.

Lemma jwt_int_date_idemp k v : jwt_int_date k (jwt_int_date k v) = jwt_int_date k v.
Proof.
  destruct v; try reflexivity. unfold jwt_int_date.
  destruct (existsb (String.eqb k) jwt_time_claims) eqn:Hk; reflexivity.
Qed.

Lemma jwt_int_dates_idemp (p : gmap string value) :
  jwt_int_dates (jwt_int_dates p) = jwt_int_dates p.
Proof.
  apply map_eq. intros k. rewrite !lookup_jwt_int_dates.
  destruct (p !! k); [| reflexivity]. simpl. rewrite jwt_int_date_idemp. reflexivity.
Qed.

(** A value is truthy as a datetime and as a text, a list or a number
    alike; only a time claim at the epoch itself turns falsy when it is
    rewritten. *)
Lemma jwt_int_date_text k v s : jwt_int_date k v = VStr s -> v = VStr s.
Proof.
  destruct v; unfold jwt_int_date; try congruence.
  destruct (existsb (String.eqb k) jwt_time_claims); discriminate.
Qed.

Lemma dict_get_insert_eq (d : gmap string value) k v :
  dict_get (<[k := v]> d) k = v.
Proof. unfold dict_get. rewrite lookup_insert_eq. reflexivity. Qed.

Lemma dict_get_insert_ne (d : gmap string value) k k' v :
  k <> k' -> dict_get (<[k := v]> d) k' = dict_get d k'.
Proof. intros Hne. unfold dict_get. rewrite lookup_insert_ne by assumption. reflexivity. Qed.

Lemma dict_get_lookup (d : gmap string value) k v :
  d !! k = Some v -> dict_get d k = v.
Proof. intros Hk. unfold dict_get. rewrite Hk. reflexivity. Qed.

Lemma dict_get_absent (d : gmap string value) k :
  d !! k = None -> dict_get d k = VNone.
Proof. intros Hk. unfold dict_get. rewrite Hk. reflexivity. Qed.

Lemma py_eq_text (v : value) (s : string) :
  py_eq v (VStr s) = true <-> v = VStr s.
Proof.
  destruct v; simpl; try (split; [discriminate | discriminate]).
  rewrite String.eqb_eq. split; congruence.
Qed.

Lemma py_eq_text_refl (s : string) : py_eq (VStr s) (VStr s) = true.
Proof. apply py_eq_text. reflexivity. Qed.

Lemma py_eq_text_ne (s s' : string) : s <> s' -> py_eq (VStr s) (VStr s') = false.
Proof. intros Hne. simpl. apply String.eqb_neq. assumption. Qed.

(** What [claims_distinct] gives: the names that matter below are pairwise
    different. *)
Lemma claims_distinct_names `{Claims} :
  claims_distinct = true ->
  NoDup [TOKEN; SESSION_ID; USER_ID; EMAIL; SCOPES; ISSUER; AUDIENCE;
         EXPIRATION_TIME; ISSUED_AT]
  /\ TOKEN_SESSION <> TOKEN_AUTHORIZATION.
Proof.
  unfold claims_distinct. rewrite andb_true_iff, negb_true_iff.
  intros [Hnd Hty]. split.
  - apply bool_decide_eq_true in Hnd. exact Hnd.
  - apply String.eqb_neq. exact Hty.
Qed.

Tactic Notation "names_distinct" constr(H) "as" ident(Htypes) :=
  let Hnd := fresh "Hnd" in
  destruct (claims_distinct_names H) as [Hnd Htypes];
  repeat match goal with
         | Hn : NoDup (_ :: _) |- _ =>
             let Hx := fresh "Hx" in
             let Hr := fresh "Hr" in
             apply NoDup_cons in Hn; destruct Hn as [Hx Hr];
             repeat (rewrite not_elem_of_cons in Hx;
                     let Hh := fresh "Hname" in destruct Hx as [Hh Hx]);
             clear Hx
         | Hn : NoDup [] |- _ => clear Hn
         end.

Section EncodeBlocks.
Context `{Claims} `{Settings} `{Externals}.

Lemma encode_check_type_run r s :
  encode_check_type r s
  = if unknown_token_type (dict_get (deref s r) TOKEN)
    then (Raise (RuntimeError "Unknown token type"), s)
    else (Ok tt, s).
Proof.
  unfold encode_check_type. rewrite bind_run. simpl.
  destruct (unknown_token_type _); reflexivity.
Qed.

Lemma encode_default_issuer_run r s :
  encode_default_issuer r s
  = if truthy (dict_get (deref s r) ISSUER) then (Ok tt, s)
    else match IDENTITY with
         | Some own => (Ok tt, set_claim r ISSUER (VStr own) s)
         | None =>
             (Raise (RuntimeError "IDENTITY must be specified in settings"), s)
         end.
Proof.
  unfold encode_default_issuer. rewrite bind_run. simpl.
  destruct (truthy _); simpl; [reflexivity |].
  destruct IDENTITY; reflexivity.
Qed.

(** The audience the module falls back on for a token type. *)
Lemma encode_default_audience_run r s :
  encode_default_audience r s
  = if truthy (dict_get (deref s r) AUDIENCE) then (Ok tt, s)
    else
      let t := dict_get (deref s r) TOKEN in
      match py_eq t (VStr TOKEN_SESSION), SESSION_AUDIENCE with
      | true, Some a => (Ok tt, set_claim r AUDIENCE a s)
      | _, _ =>
          match py_eq t (VStr TOKEN_AUTHORIZATION), AUTHORIZATION_AUDIENCE with
          | true, Some a => (Ok tt, set_claim r AUDIENCE a s)
          | _, _ =>
              match IDENTITY with
              | Some own => (Ok tt, set_claim r AUDIENCE (VList [VStr own]) s)
              | None =>
                  (Raise (RuntimeError
                            "SESSION_AUDIENCE must be specified in settings"), s)
              end
          end
      end.
Proof.
  unfold encode_default_audience. rewrite bind_run. simpl.
  destruct (truthy _); simpl; [reflexivity |].
  rewrite bind_run. simpl.
  destruct (py_eq _ (VStr TOKEN_SESSION)), SESSION_AUDIENCE;
    try reflexivity;
    destruct (py_eq _ (VStr TOKEN_AUTHORIZATION)), AUTHORIZATION_AUDIENCE;
    try reflexivity; destruct IDENTITY; reflexivity.
Qed.

Lemma encode_default_expiration_run r s :
  encode_default_expiration r s
  = if truthy (dict_get (deref s r) EXPIRATION_TIME) then (Ok tt, s)
    else
      let t := dict_get (deref s r) TOKEN in
      let stamped ttl :=
        (Ok tt, set_claim r EXPIRATION_TIME
                  (VDatetime (clock s (reads s) + ttl))
                  (ticked (logged EvUtcNow s))) in
      match py_eq t (VStr TOKEN_SESSION), SESSION_EXPIRATION with
      | true, Some ttl => stamped ttl
      | _, _ =>
          match py_eq t (VStr TOKEN_AUTHORIZATION), AUTHORIZATION_EXPIRATION with
          | true, Some ttl => stamped ttl
          | _, _ => (Ok tt, s)
          end
      end.
Proof.
  unfold encode_default_expiration. rewrite bind_run. simpl.
  destruct (truthy _); simpl; [reflexivity |].
  rewrite bind_run. simpl.
  destruct (py_eq _ (VStr TOKEN_SESSION)), SESSION_EXPIRATION;
    try reflexivity;
    destruct (py_eq _ (VStr TOKEN_AUTHORIZATION)), AUTHORIZATION_EXPIRATION;
    reflexivity.
Qed.

Lemma encode_default_issued_at_run r s :
  encode_default_issued_at r s
  = if truthy (dict_get (deref s r) ISSUED_AT) then (Ok tt, s)
    else (Ok tt, set_claim r ISSUED_AT (VDatetime (clock s (reads s)))
                   (ticked (logged EvUtcNow s))).
Proof.
  unfold encode_default_issued_at. rewrite bind_run. simpl.
  destruct (truthy _); reflexivity.
Qed.

Lemma get_private_key_and_key_id_run issuer key_id s :
  get_private_key_and_key_id issuer key_id s
  = match get_key_file_name PRIVATE_KEYS issuer key_id with
    | Raise e => (Raise e, s)
    | Ok file_name =>
        let s1 := logged (EvReadFile (key_file_path file_name)) s in
        match open_read (key_file_path file_name) with
        | Raise e => (Raise e, s1)
        | Ok data =>
            match load_pem_private_key data with
            | Raise e => (Raise e, logged EvLoadPrivateKey s1)
            | Ok key => (Ok (key, get_key_id file_name), logged EvLoadPrivateKey s1)
            end
        end
    end.
Proof.
  unfold get_private_key_and_key_id, read_key_file, lift, call.
  rewrite bind_run.
  destruct (get_key_file_name _ _ _); [| reflexivity].
  rewrite bind_run. destruct (open_read _); [| reflexivity].
  rewrite bind_run. destruct (load_pem_private_key _); reflexivity.
Qed.

Lemma get_public_key_and_key_id_run issuer key_id s :
  get_public_key_and_key_id issuer key_id s
  = match get_key_file_name PUBLIC_KEYS issuer key_id with
    | Raise e => (Raise e, s)
    | Ok file_name =>
        let s1 := logged (EvReadFile (key_file_path file_name)) s in
        match open_read (key_file_path file_name) with
        | Raise e => (Raise e, s1)
        | Ok data =>
            match load_pem_public_key data with
            | Raise e => (Raise e, logged EvLoadPublicKey s1)
            | Ok key => (Ok (key, get_key_id file_name), logged EvLoadPublicKey s1)
            end
        end
    end.
Proof.
  unfold get_public_key_and_key_id, read_key_file, lift, call.
  rewrite bind_run.
  destruct (get_key_file_name _ _ _); [| reflexivity].
  rewrite bind_run. destruct (open_read _); [| reflexivity].
  rewrite bind_run. destruct (load_pem_public_key _); reflexivity.
Qed.

Lemma encode_sign_run r s :
  encode_sign r s
  = match deref s r !! ISSUER with
    | None => (Raise (OtherError "KeyError"), s)
    | Some (VStr issuer) =>
        if bool_decide (is_Some (PRIVATE_KEYS !! issuer)) then
          match get_private_key_and_key_id issuer None s with
          | (Ok (key, key_id), s1) =>
              (jwt_encode (jwt_int_dates (deref s1 r)) key ENCODE_ALGORITHM
                 {[ KEY_ID := VStr key_id ]},
               logged EvJwtEncode (int_dated r s1))
          | (Raise e, s1) => (Raise e, s1)
          end
        else
          (Raise (RuntimeError
                    "Private key for specified issuer was not found in settings"), s)
    | Some (VList _) => (Raise (TypeError "unhashable type: 'list'"), s)
    | Some _ =>
        (Raise (RuntimeError
                  "Private key for specified issuer was not found in settings"), s)
    end.
Proof.
  unfold encode_sign. rewrite bind_run. unfold getitem.
  destruct (deref s r !! ISSUER) as [[]|]; try reflexivity.
  destruct (bool_decide _); [| reflexivity].
  rewrite bind_run.
  destruct (get_private_key_and_key_id _ _ _) as [[[key key_id]|e] s1];
    [| reflexivity].
  unfold jwt_encode_in_place. cbv zeta. rewrite deref_int_dated. reflexivity.
Qed.

End EncodeBlocks.

(** ** The signing step *)

Lemma dict_get_default (d : gmap string value) k :
  dict_get d k = default VNone (d !! k).
Proof. unfold dict_get. destruct (d !! k); reflexivity. Qed.

Section EncodeFrame.
Context `{Claims} `{Settings} `{Externals}.

Lemma encode_jwt_token_tail r :
  encode_jwt_token r = (encode_check_type r ;; tail_iss r).
Proof. reflexivity. Qed.

(** The signing step in terms of the dictionary it finds: its outcome,
    the dictionary it leaves and the clock, which it does not read. *)
Lemma encode_sign_view r s :
  fst (encode_sign r s) = signed (deref s r)
  /\ deref (snd (encode_sign r s)) r = after_signing (deref s r)
  /\ clock (snd (encode_sign r s)) = clock s
  /\ reads (snd (encode_sign r s)) = reads s.
Proof.
  rewrite encode_sign_run. unfold signed, after_signing, signing_key.
  destruct (deref s r !! ISSUER) as [[| | |issuer| |]|]; try (repeat split; reflexivity).
  destruct (bool_decide _); [| repeat split; reflexivity].
  rewrite get_private_key_and_key_id_run.
  destruct (get_key_file_name _ _ _); [| repeat split; reflexivity]. cbv zeta.
  destruct (open_read _); [| repeat split; reflexivity].
  destruct (load_pem_private_key _); [| repeat split; reflexivity].
  cbn [fst snd]. rewrite ?deref_logged, deref_int_dated, ?deref_logged.
  repeat split; reflexivity.
Qed.

(** The key the signing step got, when it got one. *)
Lemma signing_key_ok_inv (p : gmap string value) key key_id :
  signing_key p = Ok (key, key_id) ->
  exists issuer file_name data,
    p !! ISSUER = Some (VStr issuer)
    /\ get_key_file_name PRIVATE_KEYS issuer None = Ok file_name
    /\ open_read (key_file_path file_name) = Ok data
    /\ load_pem_private_key data = Ok key
    /\ key_id = get_key_id file_name.
Proof.
  unfold signing_key.
  destruct (p !! ISSUER) as [[| | |issuer| |]|]; try discriminate.
  destruct (bool_decide _); [| discriminate].
  destruct (get_key_file_name _ _ _) as [file_name|] eqn:Hfile; [| discriminate].
  destruct (open_read _) as [data|] eqn:Hread; [| discriminate].
  destruct (load_pem_private_key _) as [k|] eqn:Hload; [| discriminate].
  intros [= <- <-]. exists issuer, file_name, data. auto.
Qed.


Lemma signing_key_resolved (p : gmap string value) issuer file_name data key :
  p !! ISSUER = Some (VStr issuer) ->
  get_key_file_name PRIVATE_KEYS issuer None = Ok file_name ->
  open_read (key_file_path file_name) = Ok data ->
  load_pem_private_key data = Ok key ->
  signing_key p = Ok (key, get_key_id file_name).
Proof.
  intros Hiss Hfile Hread Hload. unfold signing_key. rewrite Hiss.
  assert (Hsome : bool_decide (is_Some (PRIVATE_KEYS !! issuer)) = true).
  { apply bool_decide_eq_true. unfold get_key_file_name in Hfile.
    destruct (PRIVATE_KEYS !! issuer); [eauto | discriminate]. }
  rewrite Hsome, Hfile, Hread, Hload. reflexivity.
Qed.

End EncodeFrame.

Lemma insert_present (d : gmap string value) k :
  truthy (dict_get d k) = true -> <[k := dict_get d k]> d = d.
Proof.
  intros Ht. apply insert_id. unfold dict_get in *.
  destruct (d !! k); [reflexivity | discriminate].
Qed.

Section EncodeSteps.
Context `{Claims} `{Settings} `{Externals}.

Lemma known_token_type ty :
  ty = TOKEN_SESSION \/ ty = TOKEN_AUTHORIZATION ->
  unknown_token_type (VStr ty) = false.
Proof.
  intros [-> | ->]; unfold unknown_token_type;
    rewrite py_eq_text_refl; [reflexivity | apply negb_false_iff, orb_true_r].
Qed.

Lemma after_issuer r s v :
  final_issuer (deref s r) = Some v ->
  exists s1,
    encode_default_issuer r s = (Ok tt, s1)
    /\ deref s1 r = <[ISSUER := v]> (deref s r)
    /\ clock s1 = clock s /\ reads s1 = reads s /\ trace s1 = trace s.
Proof.
  unfold final_issuer. intros Hv. rewrite encode_default_issuer_run.
  destruct (truthy (dict_get (deref s r) ISSUER)) eqn:Ht.
  - injection Hv as <-. exists s. rewrite insert_present by exact Ht. auto.
  - destruct IDENTITY as [own|]; [| discriminate]. injection Hv as <-.
    eexists. split; [reflexivity |]. rewrite deref_set_claim. auto.
Qed.

Lemma after_audience r s a :
  final_audience (deref s r) = Some a ->
  exists s2,
    encode_default_audience r s = (Ok tt, s2)
    /\ deref s2 r = <[AUDIENCE := a]> (deref s r)
    /\ clock s2 = clock s /\ reads s2 = reads s /\ trace s2 = trace s.
Proof.
  unfold final_audience. intros Ha. rewrite encode_default_audience_run.
  destruct (truthy (dict_get (deref s r) AUDIENCE)) eqn:Ht.
  - injection Ha as <-. exists s. rewrite insert_present by exact Ht. auto.
  - cbv zeta.
    destruct (py_eq _ (VStr TOKEN_SESSION)), SESSION_AUDIENCE;
      try (injection Ha as <-; eexists; split; [reflexivity |];
           rewrite deref_set_claim; auto; fail);
      destruct (py_eq _ (VStr TOKEN_AUTHORIZATION)), AUTHORIZATION_AUDIENCE;
      try (injection Ha as <-; eexists; split; [reflexivity |];
           rewrite deref_set_claim; auto; fail);
      destruct IDENTITY; try discriminate;
      injection Ha as <-; eexists; (split; [reflexivity |]);
      rewrite deref_set_claim; auto.
Qed.

Lemma after_expiration r s :
  exists s3,
    encode_default_expiration r s = (Ok tt, s3)
    /\ clock s3 = clock s
    /\ match expiration_ttl (deref s r) with
       | Some ttl =>
           deref s3 r
           = <[EXPIRATION_TIME := VDatetime (clock s (reads s) + ttl)]> (deref s r)
           /\ reads s3 = S (reads s) /\ trace s3 = (trace s ++ [EvUtcNow])%list
       | None => s3 = s
       end.
Proof.
  unfold expiration_ttl. rewrite encode_default_expiration_run.
  destruct (truthy (dict_get (deref s r) EXPIRATION_TIME)) eqn:Ht.
  - exists s. auto.
  - cbv zeta.
    destruct (py_eq _ (VStr TOKEN_SESSION)), SESSION_EXPIRATION;
      try (eexists; split; [reflexivity |]; rewrite deref_set_claim; auto; fail);
      destruct (py_eq _ (VStr TOKEN_AUTHORIZATION)), AUTHORIZATION_EXPIRATION;
      try (eexists; split; [reflexivity |]; rewrite deref_set_claim; auto; fail);
      exists s; auto.
Qed.

Lemma after_issued_at r s :
  exists s4,
    encode_default_issued_at r s = (Ok tt, s4)
    /\ clock s4 = clock s
    /\ if truthy (dict_get (deref s r) ISSUED_AT) then s4 = s
       else deref s4 r = <[ISSUED_AT := VDatetime (clock s (reads s))]> (deref s r)
            /\ reads s4 = S (reads s) /\ trace s4 = (trace s ++ [EvUtcNow])%list.
Proof.
  rewrite encode_default_issued_at_run.
  destruct (truthy (dict_get (deref s r) ISSUED_AT)) eqn:Ht.
  - exists s. auto.
  - eexists. split; [reflexivity |]. rewrite deref_set_claim. auto.
Qed.

End EncodeSteps.

Section EncodeNormalizes.
Context `{Claims} `{Settings} `{Externals}.

Lemma final_audience_insert (p : gmap string value) k x :
  k <> AUDIENCE -> k <> TOKEN ->
  final_audience (<[k := x]> p) = final_audience p.
Proof.
  intros Ha Ht. unfold final_audience.
  rewrite !dict_get_insert_ne by assumption. reflexivity.
Qed.

Lemma expiration_ttl_insert (p : gmap string value) k x :
  k <> EXPIRATION_TIME -> k <> TOKEN ->
  expiration_ttl (<[k := x]> p) = expiration_ttl p.
Proof.
  intros He Ht. unfold expiration_ttl.
  rewrite !dict_get_insert_ne by assumption. reflexivity.
Qed.

(** Once token type, issuer and audience are in order, the call comes
    down to signing the payload extended with the defaults. *)
Lemma encode_jwt_token_normalizes r s v a :
  claims_distinct = true ->
  unknown_token_type (dict_get (deref s r) TOKEN) = false ->
  final_issuer (deref s r) = Some v ->
  final_audience (deref s r) = Some a ->
  exists s4,
    encode_jwt_token r s = encode_sign r s4
    /\ deref s4 r = with_defaults (deref s r) v a (clock s) (reads s)
    /\ clock s4 = clock s
    /\ reads s4 = (reads s + readings (deref s r))%nat.
Proof.
  intros Hd Hty Hv Ha. names_distinct Hd as Htypes.
  rewrite encode_jwt_token_tail, bind_run, encode_check_type_run, Hty.
  unfold tail_iss. rewrite bind_run.
  destruct (after_issuer r s v Hv) as (s1 & E1 & D1 & C1 & R1 & _). rewrite E1.
  unfold tail_aud. rewrite bind_run.
  assert (Ha1 : final_audience (deref s1 r) = Some a).
  { rewrite D1, final_audience_insert by congruence. exact Ha. }
  destruct (after_audience r s1 a Ha1) as (s2 & E2 & D2 & C2 & R2 & _). rewrite E2.
  unfold tail_exp. rewrite bind_run.
  destruct (after_expiration r s2) as (s3 & E3 & C3 & X3). rewrite E3.
  unfold tail_iat. rewrite bind_run.
  destruct (after_issued_at r s3) as (s4 & E4 & C4 & X4). rewrite E4.
  exists s4. split; [reflexivity |].
  assert (Httl : expiration_ttl (deref s2 r) = expiration_ttl (deref s r)).
  { rewrite D2, D1, !expiration_ttl_insert by congruence. reflexivity. }
  rewrite Httl in X3. unfold with_defaults, readings.
  destruct (expiration_ttl (deref s r)) as [ttl|].
  - destruct X3 as (D3 & R3 & _).
    assert (Hiat : dict_get (deref s3 r) ISSUED_AT = dict_get (deref s r) ISSUED_AT).
    { rewrite D3, D2, D1, !dict_get_insert_ne by congruence. reflexivity. }
    rewrite Hiat in X4.
    destruct (truthy (dict_get (deref s r) ISSUED_AT)).
    + subst s4. rewrite D3, D2, D1, C2, C1, R2, R1.
      repeat split; [congruence | lia].
    + destruct X4 as (D4 & R4 & _).
      rewrite D4, D3, D2, D1, C3, !C2, !C1, R3, !R2, !R1.
      repeat split; [congruence | lia].
  - subst s3.
    assert (Hiat : dict_get (deref s2 r) ISSUED_AT = dict_get (deref s r) ISSUED_AT).
    { rewrite D2, D1, !dict_get_insert_ne by congruence. reflexivity. }
    rewrite Hiat in X4.
    destruct (truthy (dict_get (deref s r) ISSUED_AT)).
    + subst s4. rewrite D2, D1. repeat split; [congruence | lia].
    + destruct X4 as (D4 & R4 & _).
      rewrite D4, D2, D1, C2, C1, R2, R1.
      repeat split; [congruence | lia].
Qed.

(** A call that returns a token found token type, issuer and audience in
    order. *)
Lemma encode_jwt_token_ok_inv r s tok s' :
  claims_distinct = true ->
  encode_jwt_token r s = (Ok tok, s') ->
  unknown_token_type (dict_get (deref s r) TOKEN) = false
  /\ exists v a, final_issuer (deref s r) = Some v
                 /\ final_audience (deref s r) = Some a.
Proof.
  intros Hd E. names_distinct Hd as Htypes.
  rewrite encode_jwt_token_tail, bind_run, encode_check_type_run in E.
  destruct (unknown_token_type _); [discriminate |]. split; [reflexivity |].
  unfold tail_iss in E. rewrite bind_run in E.
  destruct (final_issuer (deref s r)) as [v|] eqn:Hv.
  - destruct (after_issuer r s v Hv) as (s1 & E1 & D1 & _). rewrite E1 in E.
    unfold tail_aud in E. rewrite bind_run in E.
    assert (Ha1 : final_audience (deref s1 r) = final_audience (deref s r)).
    { rewrite D1, final_audience_insert by congruence. reflexivity. }
    destruct (final_audience (deref s r)) as [a|] eqn:Ha; [eauto |].
    exfalso. rewrite encode_default_audience_run in E.
    unfold final_audience in Ha1.
    destruct (truthy (dict_get (deref s1 r) AUDIENCE)); [discriminate |].
    cbv zeta in E.
    destruct (py_eq _ (VStr TOKEN_SESSION)), SESSION_AUDIENCE; try discriminate;
      destruct (py_eq _ (VStr TOKEN_AUTHORIZATION)), AUTHORIZATION_AUDIENCE;
      try discriminate; destruct IDENTITY; discriminate.
  - exfalso. rewrite encode_default_issuer_run in E. unfold final_issuer in Hv.
    destruct (truthy (dict_get (deref s r) ISSUER)); [discriminate |].
    destruct IDENTITY; discriminate.
Qed.

(** A signing step that returns a token encoded the dictionary as the
    library left it. *)
Lemma encode_sign_ok_inv r s tok s' :
  encode_sign r s = (Ok tok, s') ->
  exists issuer file_name data key,
    deref s r !! ISSUER = Some (VStr issuer)
    /\ get_key_file_name PRIVATE_KEYS issuer None = Ok file_name
    /\ open_read (key_file_path file_name) = Ok data
    /\ load_pem_private_key data = Ok key
    /\ jwt_encode (deref s' r) key ENCODE_ALGORITHM
         {[ KEY_ID := VStr (get_key_id file_name) ]} = Ok tok
    /\ deref s' r = jwt_int_dates (deref s r).
Proof.
  intros E.
  destruct (encode_sign_view r s) as (Hout & Hafter & _).
  rewrite E in Hout, Hafter. simpl in Hout, Hafter.
  unfold signed in Hout. unfold after_signing in Hafter.
  destruct (signing_key (deref s r)) as [[key key_id]|] eqn:Hkey; [| discriminate].
  destruct (signing_key_ok_inv _ _ _ Hkey)
    as (issuer & file_name & data & Hiss & Hfile & Hread & Hload & ->).
  exists issuer, file_name, data, key. rewrite Hafter. auto 10.
Qed.

End EncodeNormalizes.

Section WithDefaults.
Context `{Claims} `{Settings}.
Variables (p : gmap string value) (v a : value) (now : nat -> Z) (n : nat).
Hypothesis Hd : claims_distinct = true.

Lemma with_defaults_issuer : with_defaults p v a now n !! ISSUER = Some v.
Proof.
  names_distinct Hd as Htypes. unfold with_defaults.
  destruct (expiration_ttl p), (truthy (dict_get p ISSUED_AT)); cbv zeta;
    repeat (rewrite lookup_insert_ne by congruence); apply lookup_insert_eq.
Qed.

Lemma with_defaults_audience : with_defaults p v a now n !! AUDIENCE = Some a.
Proof.
  names_distinct Hd as Htypes. unfold with_defaults.
  destruct (expiration_ttl p), (truthy (dict_get p ISSUED_AT)); cbv zeta;
    repeat (rewrite lookup_insert_ne by congruence); apply lookup_insert_eq.
Qed.

Lemma with_defaults_expiration :
  with_defaults p v a now n !! EXPIRATION_TIME
  = match expiration_ttl p with
    | Some ttl => Some (VDatetime (now n + ttl))
    | None => p !! EXPIRATION_TIME
    end.
Proof.
  names_distinct Hd as Htypes. unfold with_defaults.
  destruct (expiration_ttl p), (truthy (dict_get p ISSUED_AT)); cbv zeta;
    repeat (rewrite lookup_insert_ne by congruence);
    try apply lookup_insert_eq; reflexivity.
Qed.

Lemma with_defaults_issued_at :
  with_defaults p v a now n !! ISSUED_AT
  = if truthy (dict_get p ISSUED_AT) then p !! ISSUED_AT
    else Some (VDatetime
                 (now (match expiration_ttl p with Some _ => S n | None => n end))).
Proof.
  names_distinct Hd as Htypes. unfold with_defaults.
  destruct (expiration_ttl p), (truthy (dict_get p ISSUED_AT)); cbv zeta;
    repeat (rewrite lookup_insert_ne by congruence);
    try apply lookup_insert_eq; reflexivity.
Qed.

Lemma with_defaults_other k :
  k <> ISSUER -> k <> AUDIENCE -> k <> EXPIRATION_TIME -> k <> ISSUED_AT ->
  with_defaults p v a now n !! k = p !! k.
Proof.
  intros Hi Ha He Ht. unfold with_defaults.
  destruct (expiration_ttl p), (truthy (dict_get p ISSUED_AT)); cbv zeta;
    repeat (rewrite lookup_insert_ne by congruence); reflexivity.
Qed.

End WithDefaults.

Section TypeDefaults.
Context `{Claims} `{Settings}.

(** The validity that applies to a payload of a known type with no
    expiration yet is the one configured for the type. *)
Lemma expiration_ttl_of_type (p : gmap string value) ty :
  claims_distinct = true ->
  dict_get p TOKEN = VStr ty ->
  ty = TOKEN_SESSION \/ ty = TOKEN_AUTHORIZATION ->
  truthy (dict_get p EXPIRATION_TIME) = false ->
  expiration_ttl p
  = if String.eqb ty TOKEN_SESSION then SESSION_EXPIRATION
    else AUTHORIZATION_EXPIRATION.
Proof.
  intros Hd Htok Hty Hexp. names_distinct Hd as Htypes.
  unfold expiration_ttl. rewrite Hexp, Htok.
  destruct Hty as [-> | ->].
  - rewrite String.eqb_refl, py_eq_text_refl.
    destruct SESSION_EXPIRATION; [reflexivity |].
    rewrite (py_eq_text_ne _ _ Htypes). reflexivity.
  - assert (Hrev : TOKEN_AUTHORIZATION <> TOKEN_SESSION) by congruence.
    apply String.eqb_neq in Hrev as Hrevb.
    rewrite Hrevb, (py_eq_text_ne _ _ Hrev), py_eq_text_refl.
    destruct SESSION_EXPIRATION, AUTHORIZATION_EXPIRATION; reflexivity.
Qed.

End TypeDefaults.

Section EncodeViews.
Context `{Claims} `{Settings} `{Externals}.

(** The whole call, once token type, issuer and audience are in order:
    the outcome of signing the payload extended with the defaults, and
    the dictionary the signing step leaves of it. *)
Lemma encode_jwt_token_view r s v a :
  claims_distinct = true ->
  unknown_token_type (dict_get (deref s r) TOKEN) = false ->
  final_issuer (deref s r) = Some v ->
  final_audience (deref s r) = Some a ->
  let defaulted := with_defaults (deref s r) v a (clock s) (reads s) in
  fst (encode_jwt_token r s) = signed defaulted
  /\ deref (snd (encode_jwt_token r s)) r = after_signing defaulted
  /\ clock (snd (encode_jwt_token r s)) = clock s
  /\ reads (snd (encode_jwt_token r s))
     = (reads s + readings (deref s r))%nat.
Proof.
  intros Hd Hknown Hv Ha defaulted.
  destruct (encode_jwt_token_normalizes r s v a Hd Hknown Hv Ha)
    as (s4 & E & D4 & C4 & R4).
  destruct (encode_sign_view r s4) as (Hout & Hafter & Hclock & Hreads).
  rewrite E, Hout, Hafter, Hclock, Hreads, D4, C4, R4. auto.
Qed.

(** A call that returned a token, in full: the defaults that were in
    order, the key that signed, and the dictionary as the library left
    it, which is what the token was made of. *)
Lemma encode_jwt_token_ok_view r s tok s' :
  claims_distinct = true ->
  encode_jwt_token r s = (Ok tok, s') ->
  exists v a issuer file_name data key,
    unknown_token_type (dict_get (deref s r) TOKEN) = false
    /\ final_issuer (deref s r) = Some v
    /\ final_audience (deref s r) = Some a
    /\ v = VStr issuer
    /\ get_key_file_name PRIVATE_KEYS issuer None = Ok file_name
    /\ open_read (key_file_path file_name) = Ok data
    /\ load_pem_private_key data = Ok key
    /\ jwt_encode (deref s' r) key ENCODE_ALGORITHM
         {[ KEY_ID := VStr (get_key_id file_name) ]} = Ok tok
    /\ deref s' r
       = jwt_int_dates (with_defaults (deref s r) v a (clock s) (reads s))
    /\ clock s' = clock s
    /\ reads s' = (reads s + readings (deref s r))%nat.
Proof.
  intros Hd E.
  destruct (encode_jwt_token_ok_inv r s tok s' Hd E) as (Hknown & v & a & Hv & Ha).
  destruct (encode_jwt_token_view r s v a Hd Hknown Hv Ha)
    as (_ & _ & Hclock & Hreads).
  destruct (encode_jwt_token_normalizes r s v a Hd Hknown Hv Ha)
    as (s4 & E4 & D4 & _).
  rewrite E in Hclock, Hreads. simpl in Hclock, Hreads.
  rewrite E4 in E.
  destruct (encode_sign_ok_inv r s4 tok s' E)
    as (issuer & file_name & data & key & Hi4 & Hfile & Hread & Hload & Hjwt & Dafter).
  rewrite D4 in Hi4, Dafter.
  rewrite with_defaults_issuer in Hi4 by exact Hd. injection Hi4 as ->.
  exists (VStr issuer), a, issuer, file_name, data, key. auto 12.
Qed.

End EncodeViews.

(** ** Issuance *)

Section Issuance.
Context `{Claims} `{Settings} `{Externals}.


(** The registered names are no time claims but the two that are. *)
Lemma claims_registered_names :
  claims_registered = true ->
  ISSUER = "iss" /\ AUDIENCE = "aud" /\ EXPIRATION_TIME = "exp" /\ ISSUED_AT = "iat".
Proof.
  unfold claims_registered. rewrite !andb_true_iff, !String.eqb_eq. tauto.
Qed.



(** C8: for a SESSION or AUTHORIZATION payload with no expiration whose
    issuer, audience and signing key are in order, [encode_jwt_token]
    returns the token the library makes of the payload as the call leaves
    it; that payload has no expiration claim when no validity is
    configured for the token type, and the first reading of the clock
    plus the validity, as the integer the library leaves there, when one
    is. *)
Theorem encode_jwt_token_expiration r s ty iss file_name data key tok :
  claims_distinct = true ->
  claims_registered = true ->
  dict_get (deref s r) TOKEN = VStr ty ->
  ty = TOKEN_SESSION \/ ty = TOKEN_AUTHORIZATION ->
  deref s r !! EXPIRATION_TIME = None ->
  final_issuer (deref s r) = Some (VStr iss) ->
  is_Some (final_audience (deref s r)) ->
  get_key_file_name PRIVATE_KEYS iss None = Ok file_name ->
  open_read (key_file_path file_name) = Ok data ->
  load_pem_private_key data = Ok key ->
  jwt_encode (deref (snd (encode_jwt_token r s)) r) key ENCODE_ALGORITHM
    {[ KEY_ID := VStr (get_key_id file_name) ]} = Ok tok ->
  let configured :=
    if String.eqb ty TOKEN_SESSION then SESSION_EXPIRATION
    else AUTHORIZATION_EXPIRATION in
  fst (encode_jwt_token r s) = Ok tok
  /\ deref (snd (encode_jwt_token r s)) r !! EXPIRATION_TIME
     = match configured with
       | Some ttl => Some (VInt (clock s (reads s) + ttl))
       | None => None
       end.
Proof.
  intros Hd Hr Htok Hty Hexp Hiss [a Ha] Hfile Hread Hload Hjwt configured.
  assert (Hknown : unknown_token_type (dict_get (deref s r) TOKEN) = false).
  { rewrite Htok. apply known_token_type, Hty. }
  destruct (claims_registered_names Hr) as (_ & _ & Hname & _).
  destruct (encode_jwt_token_view r s _ a Hd Hknown Hiss Ha) as (Hout & Hafter & _).
  cbv zeta in Hout, Hafter.
  assert (Hkey : signing_key (with_defaults (deref s r) (VStr iss) a (clock s) (reads s))
                 = Ok (key, get_key_id file_name)).
  { apply (signing_key_resolved _ iss file_name data key); try assumption.
    apply with_defaults_issuer, Hd. }
  unfold signed in Hout. unfold after_signing in Hafter.
  rewrite Hkey in Hout, Hafter.
  rewrite Hafter in Hjwt |- *. split; [rewrite Hout; exact Hjwt |].
  rewrite lookup_jwt_int_dates, with_defaults_expiration by exact Hd.
  rewrite (expiration_ttl_of_type _ ty Hd Htok Hty)
    by (rewrite (dict_get_absent _ _ Hexp); reflexivity).
  fold configured. destruct configured.
  - simpl. rewrite Hname. reflexivity.
  - rewrite Hexp. reflexivity.
Qed.

(** C5, as the code has it: when token type and audience are in order and
    the final issuer is a text with no reference in [PRIVATE_KEYS],
    [encode_jwt_token] fails with the [RuntimeError]
    "Private key for specified issuer was not found in settings" if the
    issuer is not a key of the mapping, and with the [InvalidKeyError]
    "No keys defined for the given issuer" of the key resolver if it is
    mapped to an empty reference. *)
Theorem encode_jwt_token_no_private_key r s iss :
  claims_distinct = true ->
  unknown_token_type (dict_get (deref s r) TOKEN) = false ->
  final_issuer (deref s r) = Some (VStr iss) ->
  is_Some (final_audience (deref s r)) ->
  key_refs_truthy (PRIVATE_KEYS !! iss) = false ->
  fst (encode_jwt_token r s)
  = Raise (match PRIVATE_KEYS !! iss with
           | None =>
               RuntimeError
                 "Private key for specified issuer was not found in settings"
           | Some _ => InvalidKeyError "No keys defined for the given issuer"
           end).
Proof.
  intros Hd Hknown Hiss [a Ha] Hrefs.
  destruct (encode_jwt_token_normalizes r s _ a Hd Hknown Hiss Ha)
    as (s4 & E & D4 & _).
  assert (Hi4 : deref s4 r !! ISSUER = Some (VStr iss)).
  { rewrite D4. apply with_defaults_issuer, Hd. }
  rewrite E, encode_sign_run, Hi4.
  destruct (PRIVATE_KEYS !! iss) as [refs|] eqn:Hlook.
  - rewrite bool_decide_eq_true_2 by eauto.
    rewrite get_private_key_and_key_id_run. unfold get_key_file_name.
    rewrite Hlook, Hrefs. reflexivity.
  - rewrite bool_decide_eq_false_2 by (intros [x Hx]; discriminate).
    reflexivity.
Qed.

(** A claim that is truthy, or is none of the four defaulted ones, is in
    the payload extended with the defaults as it was. *)
Lemma with_defaults_kept (p : gmap string value) v a now n k :
  claims_distinct = true ->
  final_issuer p = Some v ->
  final_audience p = Some a ->
  truthy (dict_get p k) = true
  \/ (k <> ISSUER /\ k <> AUDIENCE /\ k <> EXPIRATION_TIME /\ k <> ISSUED_AT) ->
  with_defaults p v a now n !! k = p !! k.
Proof.
  intros Hd Hv Ha [Ht | (Hi & Hau & He & Hia)].
  2: { apply with_defaults_other; assumption. }
  assert (Hpresent : p !! k = Some (dict_get p k)).
  { unfold dict_get in *. destruct (p !! k); [reflexivity | discriminate]. }
  destruct (decide (k = ISSUER)) as [-> |].
  { rewrite with_defaults_issuer by exact Hd. unfold final_issuer in Hv.
    rewrite Ht in Hv. congruence. }
  destruct (decide (k = AUDIENCE)) as [-> |].
  { rewrite with_defaults_audience by exact Hd. unfold final_audience in Ha.
    rewrite Ht in Ha. congruence. }
  destruct (decide (k = EXPIRATION_TIME)) as [-> |].
  { rewrite with_defaults_expiration by exact Hd. unfold expiration_ttl.
    rewrite Ht. reflexivity. }
  destruct (decide (k = ISSUED_AT)) as [-> |].
  { rewrite with_defaults_issued_at by exact Hd. rewrite Ht. reflexivity. }
  apply with_defaults_other; assumption.
Qed.

(** C10, as the code has it: after a call that returns a token, the
    caller's dictionary holds what was encoded.  An issuer, audience or
    time of issue that was absent or falsy holds its default, the
    expiration the first reading of the clock plus the validity when one
    applies, and the two times are there as the integers the library
    leaves.  Every claim that was truthy, and every claim other than
    these four, is as it was but for the rewriting of the library: a
    [datetime] under "exp", "iat" or "nbf" has become an integer, so a
    claim that is none of the four and is not "nbf" is unchanged. *)
Theorem encode_jwt_token_mutates_payload r s tok s' :
  claims_distinct = true ->
  claims_registered = true ->
  encode_jwt_token r s = (Ok tok, s') ->
  let before := deref s r in
  let after := deref s' r in
  (forall k,
      truthy (dict_get before k) = true
      \/ (k <> ISSUER /\ k <> AUDIENCE /\ k <> EXPIRATION_TIME /\ k <> ISSUED_AT) ->
      after !! k = jwt_int_date k <$> before !! k)
  /\ (forall k,
        k <> ISSUER -> k <> AUDIENCE -> k <> EXPIRATION_TIME -> k <> ISSUED_AT ->
        k <> "nbf" ->
        after !! k = before !! k)
  /\ (truthy (dict_get before ISSUER) = false ->
      exists own, IDENTITY = Some own /\ after !! ISSUER = Some (VStr own))
  /\ (truthy (dict_get before AUDIENCE) = false ->
      exists a, final_audience before = Some a /\ after !! AUDIENCE = Some a)
  /\ after !! EXPIRATION_TIME
     = match expiration_ttl before with
       | Some ttl => Some (VInt (clock s (reads s) + ttl))
       | None => jwt_int_date EXPIRATION_TIME <$> before !! EXPIRATION_TIME
       end
  /\ (truthy (dict_get before ISSUED_AT) = false ->
      exists i, (reads s <= i < reads s')%nat
                /\ after !! ISSUED_AT = Some (VInt (clock s i)))
  /\ (exists key key_id,
        jwt_encode after key ENCODE_ALGORITHM {[ KEY_ID := VStr key_id ]} = Ok tok).
Proof.
  intros Hd Hr E before after.
  destruct (encode_jwt_token_ok_view r s tok s' Hd E)
    as (v & a & issuer & file_name & data & key & Hknown & Hv & Ha & -> & _ & _ & _
        & Hjwt & Dafter & _ & R4).
  fold before in Hv, Ha, Dafter, R4. fold after in Dafter, Hjwt.
  destruct (claims_registered_names Hr) as (Hiss & Haud & Hexp & Hiat).
  assert (Hframe : forall k,
             truthy (dict_get before k) = true
             \/ (k <> ISSUER /\ k <> AUDIENCE /\ k <> EXPIRATION_TIME
                 /\ k <> ISSUED_AT) ->
             after !! k = jwt_int_date k <$> before !! k).
  { intros k Hk. rewrite Dafter, lookup_jwt_int_dates.
    rewrite (with_defaults_kept before _ a (clock s) (reads s) k Hd Hv Ha Hk).
    reflexivity. }
  split; [exact Hframe |]. split; [| split; [| split; [| split; [| split]]]].
  - intros k Hi Hau He Hia Hnbf. rewrite Hframe by (right; auto).
    destruct (before !! k) as [x|]; [| reflexivity]. simpl. f_equal.
    apply jwt_int_date_other. rewrite Hexp, Hiat in *.
    unfold jwt_time_claims. simpl.
    rewrite !orb_false_r. rewrite !orb_false_iff.
    repeat split; apply String.eqb_neq; assumption.
  - intros Hfalsy. unfold final_issuer in Hv. rewrite Hfalsy in Hv.
    destruct IDENTITY as [own|]; [| discriminate].
    injection Hv as <-. exists own. split; [reflexivity |].
    rewrite Dafter, lookup_jwt_int_dates, with_defaults_issuer by exact Hd.
    reflexivity.
  - intros _. exists a. split; [exact Ha |].
    rewrite Dafter, lookup_jwt_int_dates, with_defaults_audience by exact Hd.
    simpl. f_equal. apply jwt_int_date_other. rewrite Haud. reflexivity.
  - rewrite Dafter, lookup_jwt_int_dates, with_defaults_expiration by exact Hd.
    destruct (expiration_ttl before); [| reflexivity].
    simpl. rewrite Hexp. reflexivity.
  - intros Hfalsy.
    rewrite Dafter, lookup_jwt_int_dates, with_defaults_issued_at by exact Hd.
    unfold readings in R4. rewrite Hfalsy in R4 |- *.
    destruct (expiration_ttl before).
    + exists (S (reads s)). split; [lia |]. simpl. rewrite Hiat. reflexivity.
    + exists (reads s). split; [lia |]. simpl. rewrite Hiat. reflexivity.
  - exists key, (get_key_id file_name). exact Hjwt.
Qed.

End Issuance.

(** ** Verification *)

Lemma dict_get_delete_eq (d : gmap string value) k :
  dict_get (delete k d) k = VNone.
Proof. unfold dict_get. rewrite lookup_delete_eq. reflexivity. Qed.

Lemma dict_get_delete_ne (d : gmap string value) k k' :
  k <> k' -> dict_get (delete k d) k' = dict_get d k'.
Proof. intros Hne. unfold dict_get. rewrite lookup_delete_ne by assumption. reflexivity. Qed.

Section Verification.
Context `{Claims} `{Settings} `{Externals}.

Lemma decode_jwt_token_run tok s :
  decode_jwt_token tok s
  = match decode_jwt_token_verified tok s with
    | (Ok payload, s1) => (decode_jwt_token_checks payload, s1)
    | (Raise e, s1) => (Raise e, s1)
    end.
Proof. reflexivity. Qed.

(** The verified phase once both unverified reads have succeeded and the
    issuer claim is there. *)
Lemma decode_jwt_token_verified_peeked tok s header body iss :
  jwt_get_unverified_header tok = Ok header ->
  jwt_decode_unverified tok = Ok body ->
  body !! ISSUER = Some iss ->
  let s2 := logged EvUnverifiedDecode (logged EvUnverifiedHeader s) in
  decode_jwt_token_verified tok s
  = if match ACCEPTED_ISSUERS with
       | Some accepted => negb (existsb (String.eqb (text_type iss)) accepted)
       | None => false
       end
    then (Raise (InvalidIssuerError "Invalid issuer"), s2)
    else
      match get_public_key_and_key_id (text_type iss) (header_key_id header) s2 with
      | (Ok (key, _), s3) =>
          (jwt_decode tok key VERIFY_SIGNATURE allowed_algorithms
             {| verify_exp := VERIFY_EXPIRATION; verify_aud := true;
                verify_iss := true |}
             EXPIRATION_LEEWAY IDENTITY (text_type iss) (clock s3 (reads s3)),
           logged EvJwtDecode (ticked s3))
      | (Raise e, s3) => (Raise e, s3)
      end.
Proof.
  intros Hheader Hbody Hiss s2.
  unfold decode_jwt_token_verified, call.
  rewrite bind_run, Hheader. cbv beta iota.
  rewrite bind_run, Hbody. cbv beta iota.
  rewrite Hiss, bind_run. fold s2. fold (header_key_id header).
  destruct ACCEPTED_ISSUERS as [accepted|].
  - destruct (negb (existsb (String.eqb (text_type iss)) accepted)); [reflexivity |].
    cbv beta iota delta [ret]. rewrite bind_run.
    destruct (get_public_key_and_key_id _ _ _) as [[[key key_id]|e] s3];
      reflexivity.
  - cbv beta iota delta [ret]. rewrite bind_run.
    destruct (get_public_key_and_key_id _ _ _) as [[[key key_id]|e] s3];
      reflexivity.
Qed.

(** C2: when the allow-list is configured and the issuer read from the
    unverified claims is not on it, [decode_jwt_token] fails with
    [InvalidIssuerError]; the only external calls made are the two
    unverified reads, so no key file has been read, no key loaded and no
    verification attempted. *)
Theorem decode_jwt_token_rejects_unlisted_issuer tok s header body iss accepted :
  jwt_get_unverified_header tok = Ok header ->
  jwt_decode_unverified tok = Ok body ->
  body !! ISSUER = Some iss ->
  ACCEPTED_ISSUERS = Some accepted ->
  ~ In (text_type iss) accepted ->
  fst (decode_jwt_token tok s) = Raise (InvalidIssuerError "Invalid issuer")
  /\ trace (snd (decode_jwt_token tok s))
     = (trace s ++ [EvUnverifiedHeader; EvUnverifiedDecode])%list.
Proof.
  intros Hheader Hbody Hiss Hlist Hnot.
  assert (Hex : existsb (String.eqb (text_type iss)) accepted = false).
  { destruct (existsb _ accepted) eqn:Hex; [| reflexivity].
    apply existsb_exists in Hex as (x & Hin & Heq).
    apply String.eqb_eq in Heq. subst x. contradiction. }
  assert (E : decode_jwt_token_verified tok s
              = (Raise (InvalidIssuerError "Invalid issuer"),
                 logged EvUnverifiedDecode (logged EvUnverifiedHeader s))).
  { unfold decode_jwt_token_verified, call.
    rewrite bind_run, Hheader. cbv beta iota.
    rewrite bind_run, Hbody. cbv beta iota.
    rewrite Hiss, bind_run, Hlist, Hex. reflexivity. }
  rewrite decode_jwt_token_run, E. simpl.
  split; [reflexivity |]. rewrite <- app_assoc. reflexivity.
Qed.

(** C1: a verified payload of type SESSION whose issuer is not the
    configured identity is rejected with the [InvalidTokenError] of the
    cross-issuer rule, whatever the settings and whatever let the payload
    through verification; a payload of type AUTHORIZATION from such an
    issuer passes that rule and is judged on its session and user ids
    alone. *)
Theorem decode_jwt_token_cross_issuer tok s payload s1 ty :
  claims_distinct = true ->
  decode_jwt_token_verified tok s = (Ok payload, s1) ->
  py_eq (dict_get payload ISSUER) (opt_value IDENTITY) = false ->
  dict_get payload TOKEN = VStr ty ->
  ty = TOKEN_SESSION \/ ty = TOKEN_AUTHORIZATION ->
  decode_jwt_token tok s
  = (if String.eqb ty TOKEN_SESSION then
       Raise (InvalidTokenError
                "Only authorization tokens are accepted from other issuers")
     else if negb (truthy (dict_get payload SESSION_ID)) then
       Raise (MissingRequiredClaimError "Session ID is missing.")
     else if negb (truthy (dict_get payload USER_ID)) then
       Raise (MissingRequiredClaimError "User ID is missing.")
     else Ok payload,
     s1).
Proof.
  intros Hd Hverified Hforeign Htok Hty. names_distinct Hd as Htypes.
  rewrite decode_jwt_token_run, Hverified. f_equal.
  unfold decode_jwt_token_checks.
  rewrite Htok, (known_token_type ty Hty), Hforeign. simpl negb at 1.
  destruct Hty as [-> | ->].
  - rewrite String.eqb_refl, (py_eq_text_ne _ _ Htypes). reflexivity.
  - assert (Hrev : TOKEN_AUTHORIZATION <> TOKEN_SESSION) by congruence.
    apply String.eqb_neq in Hrev. rewrite Hrev, py_eq_text_refl. reflexivity.
Qed.

(** C9: a verified payload whose session id or user id is present but
    falsy is rejected exactly as the same payload without that claim;
    once the token type is known and the cross-issuer rule passed, the
    rejection is a [MissingRequiredClaimError]. *)
Theorem decode_jwt_token_falsy_identifier tok s payload s1 k x :
  claims_distinct = true ->
  decode_jwt_token_verified tok s = (Ok payload, s1) ->
  k = SESSION_ID \/ k = USER_ID ->
  payload !! k = Some x ->
  truthy x = false ->
  exists e,
    decode_jwt_token tok s = (Raise e, s1)
    /\ decode_jwt_token_checks (delete k payload) = Raise e
    /\ if unknown_token_type (dict_get payload TOKEN) then
         e = InvalidTokenError "Unknown token type"
       else if negb (py_eq (dict_get payload ISSUER) (opt_value IDENTITY))
               && negb (py_eq (dict_get payload TOKEN) (VStr TOKEN_AUTHORIZATION))
       then
         e = InvalidTokenError
               "Only authorization tokens are accepted from other issuers"
       else exists msg, e = MissingRequiredClaimError msg.
Proof.
  intros Hd Hverified Hk Hx Hfalsy. names_distinct Hd as Htypes.
  rewrite decode_jwt_token_run, Hverified.
  unfold decode_jwt_token_checks.
  assert (Hkx : dict_get payload k = x) by (apply dict_get_lookup, Hx).
  destruct Hk as [-> | ->];
    rewrite !dict_get_delete_eq, !dict_get_delete_ne by congruence;
    rewrite Hkx, Hfalsy;
    destruct (unknown_token_type (dict_get payload TOKEN));
    try (eexists; repeat split; reflexivity);
    destruct (negb (py_eq (dict_get payload ISSUER) (opt_value IDENTITY))
              && negb (py_eq (dict_get payload TOKEN) (VStr TOKEN_AUTHORIZATION)));
    try (eexists; repeat split; reflexivity).
  - eexists. repeat split. eexists. reflexivity.
  - simpl. destruct (truthy (dict_get payload SESSION_ID)); simpl;
      eexists; repeat split; eexists; reflexivity.
Qed.

End Verification.

(** ** Round trip *)

Lemma texts_of_native l names :
  texts_of l = Some names -> json_native (VList l) = true.
Proof.
  revert names. induction l as [|u l IH]; intros names Hl; [reflexivity |].
  simpl in Hl. destruct u; try discriminate.
  destruct (texts_of l) as [rest|] eqn:Hrest; [| discriminate].
  simpl. simpl in IH. eapply IH. reflexivity.
Qed.

Section RoundTrip.
Context `{Claims} `{Externals}.
Variables issuing verifying : Settings.
Variable keypair : private_key -> public_key -> Prop.
Variable wire : gmap string value -> gmap string value.
Hypothesis laws : JwtLaws keypair wire.

Lemma wire_get body k :
  json_native (dict_get body k) = true ->
  dict_get (wire body) k = dict_get body k.
Proof.
  intros Hn. rewrite !dict_get_default.
  rewrite (wire_native _ _ laws body k Hn). reflexivity.
Qed.

Lemma audience_includes_native v own :
  audience_includes v own = true -> json_native v = true.
Proof.
  destruct v; try discriminate; [reflexivity |].
  unfold audience_includes. destruct (texts_of l) eqn:Hl; [| discriminate].
  intros _. eapply texts_of_native, Hl.
Qed.

(** A time claim that is absent or an integer is carried as it is. *)
Lemma wire_not_in_future body k now leeway :
  not_in_future body k now leeway = true ->
  wire body !! k = body !! k.
Proof.
  unfold not_in_future. intros Hk. apply (wire_native _ _ laws).
  unfold dict_get. destruct (body !! k) as [[]|]; try discriminate; reflexivity.
Qed.

(** The registered claims of a payload that names the verifier, carries
    the expected issuer, was not issued and does not begin ahead of the
    clock and has not expired are valid on the wire. *)
Lemma jwt_validate_claims_wire body own iss verify now leeway :
  claims_registered = true ->
  dict_get body ISSUER = VStr iss ->
  audience_includes (dict_get body AUDIENCE) own = true ->
  expiration_fresh body verify now leeway = true ->
  not_in_future body ISSUED_AT now leeway = true ->
  not_in_future body "nbf" now leeway = true ->
  jwt_validate_claims (wire body)
    {| verify_exp := verify; verify_aud := true; verify_iss := true |}
    leeway (Some own) iss now = Ok tt.
Proof.
  intros Hr Hiss Haud Hexp Hiat Hnbf.
  destruct (claims_registered_names Hr) as (Ni & Na & Ne & Nt).
  rewrite Ni in Hiss. rewrite Na in Haud. rewrite Nt in Hiat.
  unfold expiration_fresh in Hexp. rewrite Ne in Hexp.
  unfold jwt_validate_claims. cbn [verify_exp verify_aud verify_iss].
  (* time of issue *)
  rewrite (wire_not_in_future _ _ _ _ Hiat).
  assert (Hahead : forall t, (t <=? now + leeway) = true ->
                             (now + leeway <? t) = false).
  { intros t Ht. apply Z.leb_le in Ht. apply Z.ltb_ge. exact Ht. }
  unfold not_in_future in Hiat.
  destruct (body !! "iat") as [[| |i| | |]|]; try discriminate;
    rewrite ?(Hahead _ Hiat).
  (* not before *)
  all: rewrite (wire_not_in_future _ _ _ _ Hnbf); unfold not_in_future in Hnbf;
    destruct (body !! "nbf") as [[| |n| | |]|]; try discriminate;
    rewrite ?(Hahead _ Hnbf).
  (* expiration, issuer, audience *)
  all: assert (Hwi : wire body !! "iss" = Some (VStr iss))
    by (rewrite (wire_native _ _ laws) by (rewrite Hiss; reflexivity);
        unfold dict_get in Hiss; destruct (body !! "iss"); congruence).
  all: assert (Hwa : wire body !! "aud" = Some (dict_get body "aud"))
    by (rewrite (wire_native _ _ laws) by (eapply audience_includes_native, Haud);
        unfold dict_get in *; destruct (body !! "aud"); [reflexivity | discriminate]).
  all: rewrite Hwi, Hwa, py_eq_text_refl.
  all: assert (Hexp_ok :
            match wire body !! "exp" with
            | Some (VInt e) =>
                if verify && (e <? now - leeway)
                then Raise (ExpiredSignatureError "Signature has expired")
                else Ok tt
            | Some _ =>
                if verify
                then Raise (DecodeError
                              "Expiration Time claim (exp) must be an integer.")
                else Ok tt
            | None => Ok tt
            end = Ok tt)
    by (destruct verify;
        [| destruct (wire body !! "exp") as [[]|]; reflexivity];
        destruct (body !! "exp") as [x|] eqn:Hx;
        [ destruct x as [| |e| | |]; try discriminate;
          rewrite (wire_native _ _ laws)
            by (rewrite (dict_get_lookup _ _ _ Hx); reflexivity);
          rewrite Hx; simpl in Hexp |- *;
          apply Z.leb_le in Hexp;
          replace (e <? now - leeway) with false
            by (symmetry; apply Z.ltb_ge; exact Hexp);
          reflexivity
        | rewrite (wire_native _ _ laws)
            by (rewrite (dict_get_absent _ _ Hx); reflexivity);
          rewrite Hx; reflexivity ]).
  all: rewrite Hexp_ok.
  all: unfold audience_includes in Haud;
    destruct (dict_get body "aud"); try discriminate;
    [ simpl; rewrite Haud; reflexivity
    | destruct (texts_of l); [| discriminate]; rewrite Haud; reflexivity ].
Qed.

(** C4, as the code has it: a token made by [encode_jwt_token] in one
    deployment verifies in another (or the same) one, and
    [decode_jwt_token] returns the caller's dictionary as the call has
    left it, that is, the payload extended with the defaulted claims, the
    time claims as integers, as the token carries it (JSON-native claims
    unchanged), provided the payload has truthy, JSON-native session and
    user ids; the verifier's identity is configured and named by the
    audience; the issuer is that identity or the token is an
    AUTHORIZATION token; the issuer is on the verifier's allow-list, if
    it has one, and the signing algorithm among those it accepts; at the
    verifier's clock, with its leeway, the expiration, if any, has not
    passed or is not verified, and neither the time of issue nor a
    not-before time lies ahead; and the public key the verifier resolves
    for the issuer and key id pairs with the private key that signed. *)
Theorem decode_of_encode_round_trip r s tok s1 sv ty iss own
    sk pk fpriv dpriv fpub dpub :
  claims_distinct = true ->
  claims_registered = true ->
  @encode_jwt_token _ issuing _ r s = (Ok tok, s1) ->
  let before := deref s r in
  let after := deref s1 r in
  let now := clock sv (reads sv) in
  let leeway := @EXPIRATION_LEEWAY verifying in
  dict_get after TOKEN = VStr ty ->
  dict_get after ISSUER = VStr iss ->
  @IDENTITY verifying = Some own ->
  iss = own \/ ty = TOKEN_AUTHORIZATION ->
  truthy (dict_get after SESSION_ID) = true ->
  json_native (dict_get after SESSION_ID) = true ->
  truthy (dict_get after USER_ID) = true ->
  json_native (dict_get after USER_ID) = true ->
  audience_includes (dict_get after AUDIENCE) own = true ->
  expiration_fresh after (@VERIFY_EXPIRATION verifying) now leeway = true ->
  not_in_future after ISSUED_AT now leeway = true ->
  not_in_future after "nbf" now leeway = true ->
  match @ACCEPTED_ISSUERS verifying with
  | Some accepted => In iss accepted
  | None => True
  end ->
  In (@ENCODE_ALGORITHM issuing) (@allowed_algorithms verifying) ->
  get_key_file_name (@PRIVATE_KEYS issuing) iss None = Ok fpriv ->
  open_read (@key_file_path issuing _ fpriv) = Ok dpriv ->
  load_pem_private_key dpriv = Ok sk ->
  get_key_file_name (@PUBLIC_KEYS verifying) iss
    (if truthy (VStr (get_key_id fpriv)) then Some (get_key_id fpriv) else None)
  = Ok fpub ->
  open_read (@key_file_path verifying _ fpub) = Ok dpub ->
  load_pem_public_key dpub = Ok pk ->
  keypair sk pk ->
  fst (@decode_jwt_token _ verifying _ tok sv) = Ok (wire after)
  /\ (ty = TOKEN_SESSION \/ ty = TOKEN_AUTHORIZATION)
  /\ @final_issuer _ issuing before = Some (VStr iss)
  /\ @final_audience _ issuing before = Some (dict_get after AUDIENCE)
  /\ after
     = jwt_int_dates
         (@with_defaults _ issuing before (VStr iss) (dict_get after AUDIENCE)
            (clock s) (reads s))
  /\ (forall k, json_native (dict_get after k) = true ->
                wire after !! k = after !! k).
Proof.
  intros Hd Hr E before after now leeway Htok Hiss Hown Hcross Hsid Hsidn Huid Huidn
    Haud Hexp Hiat Hnbf Hlist Halg Hfpriv Hdpriv Hsk Hfpub Hdpub Hpk Hpair.
  names_distinct Hd as Htypes.
  destruct (claims_registered_names Hr) as (Ni & Na & Ne & Nt).
  (* what the call did *)
  destruct (@encode_jwt_token_ok_view _ issuing _ r s tok s1 Hd E)
    as (v & a & issuer & file_name & data & key & Hknown & Hv & Ha & -> & Hfile
        & Hread & Hload & Hjwt & Dafter & _).
  fold before in Hknown, Hv, Ha, Dafter. fold after in Hjwt, Dafter.
  assert (Hi : after !! ISSUER = Some (VStr issuer)).
  { rewrite Dafter, lookup_jwt_int_dates, with_defaults_issuer by exact Hd.
    reflexivity. }
  assert (issuer = iss).
  { rewrite (dict_get_lookup _ _ _ Hi) in Hiss. congruence. }
  subst issuer.
  assert (Haa : dict_get after AUDIENCE = a).
  { apply dict_get_lookup.
    rewrite Dafter, lookup_jwt_int_dates, with_defaults_audience by exact Hd.
    simpl. f_equal. apply jwt_int_date_other. rewrite Na. reflexivity. }
  assert (Hty : ty = TOKEN_SESSION \/ ty = TOKEN_AUTHORIZATION).
  { assert (Ht : dict_get before TOKEN = VStr ty).
    { pose proof Htok as Ht.
      rewrite Dafter, dict_get_jwt_int_dates in Ht.
      rewrite (dict_get_default (with_defaults _ _ _ _ _)) in Ht.
      rewrite with_defaults_other, <- dict_get_default in Ht by congruence.
      apply jwt_int_date_text in Ht. exact Ht. }
    rewrite Ht in Hknown. unfold unknown_token_type in Hknown.
    apply negb_false_iff, orb_true_iff in Hknown.
    destruct Hknown as [Hk | Hk]; apply py_eq_text in Hk; injection Hk as ->; auto. }
  assert (file_name = fpriv) by congruence. subst file_name.
  assert (data = dpriv) by congruence. subst data.
  assert (key = sk) by congruence. subst key.
  split; [| split; [exact Hty | split; [exact Hv | split; [| split]]]].
  2: { rewrite Haa. exact Ha. }
  2: { rewrite Haa. exact Dafter. }
  2: { intros k Hk. apply (wire_native _ _ laws), Hk. }
  (* what the token gives back *)
  destruct (header_of_encode _ _ laws _ _ _ _ _ Hjwt) as (h & Hh & Hkid).
  pose proof (claims_of_encode _ _ laws _ _ _ _ _ Hjwt) as Hbody.
  rewrite lookup_singleton_eq in Hkid.
  assert (Hwiss : wire after !! ISSUER = Some (VStr iss)).
  { rewrite (wire_native _ _ laws) by (rewrite Hiss; reflexivity). exact Hi. }
  assert (Hgate :
            match @ACCEPTED_ISSUERS verifying with
            | Some accepted =>
                negb (existsb (String.eqb (text_type (VStr iss))) accepted)
            | None => false
            end = false).
  { destruct (@ACCEPTED_ISSUERS verifying) as [accepted|]; [| reflexivity].
    apply negb_false_iff, existsb_exists. exists iss.
    split; [exact Hlist | apply String.eqb_refl]. }
  assert (Hverified :
            fst (@decode_jwt_token_verified _ verifying _ tok sv) = Ok (wire after)).
  { rewrite (@decode_jwt_token_verified_peeked _ verifying _ tok sv h (wire after)
               (VStr iss) Hh Hbody Hwiss).
    rewrite Hgate, get_public_key_and_key_id_run.
    unfold header_key_id. rewrite (dict_get_lookup _ _ _ Hkid).
    change (text_type (VStr iss)) with iss.
    change (text_type (VStr (get_key_id fpriv))) with (get_key_id fpriv).
    rewrite Hfpub. cbv zeta. rewrite Hdpub, Hpk. cbn [fst].
    cbn [reads clock logged].
    apply (decode_of_encode _ _ laws _ _ _ _ _ pk _ _ _ _ _ iss _ Hjwt Hpair Halg).
    rewrite Hown. apply jwt_validate_claims_wire; assumption. }
  rewrite decode_jwt_token_run.
  destruct (@decode_jwt_token_verified _ verifying _ tok sv) as [[payload|e] s2];
    simpl in Hverified; [| discriminate].
  injection Hverified as ->. simpl.
  unfold decode_jwt_token_checks.
  rewrite !wire_get
    by (rewrite ?Htok, ?Hiss; try reflexivity; assumption).
  rewrite Htok, Hiss, (known_token_type ty Hty), Hown, Hsid, Huid.
  simpl opt_value.
  destruct Hcross as [-> | ->].
  - rewrite py_eq_text_refl. reflexivity.
  - rewrite (py_eq_text_refl TOKEN_AUTHORIZATION), andb_false_r. reflexivity.
Qed.

End RoundTrip.

(** ** The concrete deployment *)

(** The transparent stand-in for the [jwt] package meets the contract, a
    key pair being a private and a public key with the same material. *)
Lemma plain_jwt_laws : @JwtLaws the_claims plain_externals eq plain_wire.
Proof.
  split.
  - intros body k Hn. unfold plain_wire. rewrite map_lookup_imap.
    unfold dict_get in Hn. destruct (body !! k) as [v|]; [| reflexivity].
    simpl. destruct v; try reflexivity. discriminate.
  - intros body key alg headers tok Henc. injection Henc as <-.
    eexists. split; [reflexivity |]. simpl.
    rewrite !lookup_insert_ne by discriminate. reflexivity.
  - intros body key alg headers tok Henc. injection Henc as <-. reflexivity.
  - intros body key alg headers tok pk verify algs opts leeway aud iss now
      Henc Hpair Hin Hvalid.
    injection Henc as <-. subst pk. simpl. unfold plain_jwt_decode. simpl.
    destruct verify; [| reflexivity].
    assert (Hex : existsb (String.eqb alg) algs = true).
    { apply existsb_exists. exists alg. split; [exact Hin | apply String.eqb_refl]. }
    rewrite Hex, String.eqb_refl. simpl.
    simpl in Hvalid. rewrite Hvalid. reflexivity.
Qed.

Ltac computed := vm_compute; reflexivity.


Lemma encode_jwt_token_expiration_witness :
  let s := world 1000 session_payload in
  (exists tok,
      fst (@encode_jwt_token the_claims svc_a_bare plain_externals 0%nat s) = Ok tok
      /\ deref (snd (@encode_jwt_token the_claims svc_a_bare plain_externals 0%nat s))
           0%nat !! "exp" = None)
  /\ (exists tok,
        fst (@encode_jwt_token the_claims svc_a plain_externals 0%nat s) = Ok tok
        /\ deref (snd (@encode_jwt_token the_claims svc_a plain_externals 0%nat s))
             0%nat !! "exp" = Some (VInt 4600)).
Proof.
  intros s. split.
  - eexists.
    apply (@encode_jwt_token_expiration the_claims svc_a_bare plain_externals
             0%nat s "session" "svc-a" "svc-a.pem" "key pair A" "key pair A").
    + computed.
    + computed.
    + computed.
    + left. reflexivity.
    + computed.
    + computed.
    + exists (VList [VStr "svc-a"]). computed.
    + computed.
    + computed.
    + reflexivity.
    + computed.
  - eexists.
    apply (@encode_jwt_token_expiration the_claims svc_a plain_externals
             0%nat s "session" "svc-a" "svc-a.pem" "key pair A" "key pair A").
    + computed.
    + computed.
    + computed.
    + left. reflexivity.
    + computed.
    + computed.
    + exists (VList [VStr "svc-a"]). computed.
    + computed.
    + computed.
    + reflexivity.
    + computed.
Defined.

Lemma encode_jwt_token_no_private_key_witness :
  let s := world 1000 foreign_session_payload in
  fst (@encode_jwt_token the_claims svc_a plain_externals 0%nat s)
  = Raise (RuntimeError "Private key for specified issuer was not found in settings").
Proof.
  intros s.
  apply (@encode_jwt_token_no_private_key the_claims svc_a plain_externals
           0%nat s "svc-b").
  - computed.
  - computed.
  - computed.
  - exists (VList [VStr "svc-a"]). computed.
  - computed.
Defined.

(** C5, as the specification words it, fails: an issuer that is not a key
    of [PRIVATE_KEYS] makes the call fail with a [RuntimeError], the class
    of its configuration errors, and not with the [InvalidKeyError] the key
    resolver raises when no reference matches a key identifier. *)
Lemma encode_jwt_token_missing_key_not_key_error :
  let s := world 1000 foreign_session_payload in
  (@PRIVATE_KEYS svc_a) !! "svc-b" = None
  /\ fst (@encode_jwt_token the_claims svc_a plain_externals 0%nat s)
     = Raise (RuntimeError "Private key for specified issuer was not found in settings")
  /\ get_key_file_name (@PRIVATE_KEYS svc_a) "svc-a" (Some "other")
     = Raise (InvalidKeyError "No key matches the given key_id")
  /\ forall msg,
       fst (@encode_jwt_token the_claims svc_a plain_externals 0%nat s)
       <> Raise (InvalidKeyError msg).
Proof.
  intros s. split; [computed |]. split; [computed |]. split; [computed |].
  intros msg. vm_compute. discriminate.
Qed.

Lemma encode_jwt_token_mutates_payload_witness :
  let s := world 1000 session_payload in
  let s' := snd (@encode_jwt_token the_claims svc_a plain_externals 0%nat s) in
  deref s' 0%nat !! "sid" = deref s 0%nat !! "sid"
  /\ deref s' 0%nat !! "exp" = Some (VInt 4600).
Proof.
  intros s s'.
  assert (E : exists tok,
             @encode_jwt_token the_claims svc_a plain_externals 0%nat s = (Ok tok, s')).
  { eexists. computed. }
  destruct E as [tok E].
  destruct (@encode_jwt_token_mutates_payload the_claims svc_a plain_externals
              0%nat s tok s' eq_refl eq_refl E) as (_ & Hframe & _ & _ & Hexp & _).
  split.
  - apply Hframe; discriminate.
  - etransitivity; [exact Hexp | computed].
Defined.

(** C10, as the specification words it, fails: a not-before time the
    caller has set as a [datetime] is none of the defaulted claims, and
    after a call that returns a token the caller's dictionary holds it as
    an integer. *)
Lemma encode_jwt_token_rewrites_not_before :
  let s := world 1000 embargoed_session_payload in
  exists tok s',
    @encode_jwt_token the_claims svc_a plain_externals 0%nat s = (Ok tok, s')
    /\ deref s 0%nat !! "nbf" = Some (VDatetime 10)
    /\ deref s' 0%nat !! "nbf" = Some (VInt 10)
    /\ deref s' 0%nat !! "nbf" <> deref s 0%nat !! "nbf".
Proof.
  intros s. eexists. eexists. split; [computed |].
  split; [computed |]. split; [computed |]. vm_compute. discriminate.
Qed.

Lemma decode_jwt_token_rejects_unlisted_issuer_witness :
  let s := world 1000 ∅ in
  fst (@decode_jwt_token the_claims svc_a plain_externals unlisted_token s)
  = Raise (InvalidIssuerError "Invalid issuer")
  /\ trace (snd (@decode_jwt_token the_claims svc_a plain_externals unlisted_token s))
     = [EvUnverifiedHeader; EvUnverifiedDecode].
Proof.
  intros s.
  apply (@decode_jwt_token_rejects_unlisted_issuer the_claims svc_a plain_externals
           unlisted_token s (tk_header unlisted_token) (tk_claims unlisted_token)
           (VStr "svc-x") ["svc-a"; "svc-b"]).
  - reflexivity.
  - reflexivity.
  - computed.
  - reflexivity.
  - simpl. intros [Ha | [Hb | []]]; discriminate.
Defined.

Lemma decode_jwt_token_cross_issuer_witness :
  let s := world 1000 ∅ in
  fst (@decode_jwt_token the_claims svc_a plain_externals foreign_session_token s)
  = Raise (InvalidTokenError
             "Only authorization tokens are accepted from other issuers").
Proof.
  intros s.
  rewrite (@decode_jwt_token_cross_issuer the_claims svc_a plain_externals
             foreign_session_token s (tk_claims foreign_session_token)
             (snd (@decode_jwt_token_verified the_claims svc_a plain_externals
                     foreign_session_token s))
             "session").
  - reflexivity.
  - computed.
  - computed.
  - computed.
  - computed.
  - left. reflexivity.
Defined.

Lemma decode_jwt_token_falsy_identifier_witness :
  let s := world 1000 ∅ in
  exists e,
    fst (@decode_jwt_token the_claims svc_a plain_externals zero_session_token s)
    = Raise e
    /\ @decode_jwt_token_checks the_claims svc_a
         (delete "sid" (tk_claims zero_session_token)) = Raise e.
Proof.
  intros s.
  destruct (@decode_jwt_token_falsy_identifier the_claims svc_a plain_externals
              zero_session_token s (tk_claims zero_session_token)
              (snd (@decode_jwt_token_verified the_claims svc_a plain_externals
                      zero_session_token s))
              "sid" (VInt 0))
    as (e & He & Hdel & _).
  - computed.
  - computed.
  - left. reflexivity.
  - computed.
  - reflexivity.
  - exists e. rewrite He. split; [reflexivity | exact Hdel].
Defined.

(** C9, as the specification words it, fails: a verified payload whose
    session id is zero is rejected, but when its token type is not a known
    one the rejection is the [InvalidTokenError] of the type check, which
    runs first, and no missing-claim error. *)
Lemma decode_jwt_token_falsy_identifier_unknown_type :
  let s := world 1000 ∅ in
  tk_claims untyped_token !! "sid" = Some (VInt 0)
  /\ fst (@decode_jwt_token_verified the_claims svc_a plain_externals untyped_token s)
     = Ok (tk_claims untyped_token)
  /\ fst (@decode_jwt_token the_claims svc_a plain_externals untyped_token s)
     = Raise (InvalidTokenError "Unknown token type")
  /\ forall msg,
       fst (@decode_jwt_token the_claims svc_a plain_externals untyped_token s)
       <> Raise (MissingRequiredClaimError msg).
Proof.
  intros s. split; [computed |]. split; [computed |]. split; [computed |].
  intros msg. vm_compute. discriminate.
Qed.

Lemma decode_of_encode_round_trip_witness :
  let s := world 1000 authorization_payload in
  exists tok s1,
    @encode_jwt_token the_claims svc_a plain_externals 0%nat s = (Ok tok, s1)
    /\ fst (@decode_jwt_token the_claims svc_b plain_externals tok (world 2000 ∅))
       = Ok (plain_wire (deref s1 0%nat))
    /\ deref s1 0%nat !! "exp" = Some (VInt 4600)
    /\ deref s1 0%nat !! "aud" = Some (VList [VStr "svc-b"]).
Proof.
  intros s. eexists. eexists. split; [computed |].
  split; [| split; computed].
  refine (proj1 (@decode_of_encode_round_trip the_claims plain_externals svc_a svc_b
                   eq plain_wire plain_jwt_laws 0%nat s _ _ (world 2000 ∅)
                   "authorization" "svc-a" "svc-b"
                   "key pair A" "key pair A" "svc-a.pem" "key pair A" "svc-a.pem"
                   "key pair A" _ _ _ _ _ _ _ _ _ _ _ _ _ _ _ _ _ _ _ _ _ _ _ _));
    try computed.
  - right. reflexivity.
  - simpl. left. reflexivity.
  - left. reflexivity.
Defined.

(** C4, as the specification words it, fails, with a valid payload and
    the key pair of [svc-a] configured at both services.  A session token
    whose audience names [svc-b] is rejected there by the rule on tokens of
    other issuers; and a session token that verifies at [svc-a] itself no
    longer does once its validity has passed. *)
Lemma round_trip_fails_elsewhere_and_later :
  (exists tok s1,
      @encode_jwt_token the_claims svc_a plain_externals 0%nat
        (world 1000 shared_session_payload) = (Ok tok, s1)
      /\ audience_includes (dict_get (deref s1 0%nat) "aud") "svc-b" = true
      /\ fst (@decode_jwt_token the_claims svc_b plain_externals tok (world 1002 ∅))
         = Raise (InvalidTokenError
                    "Only authorization tokens are accepted from other issuers"))
  /\ (exists tok s1,
        @encode_jwt_token the_claims svc_a plain_externals 0%nat
          (world 1000 session_payload) = (Ok tok, s1)
        /\ fst (@decode_jwt_token the_claims svc_a plain_externals tok (world 1002 ∅))
           = Ok (plain_wire (deref s1 0%nat))
        /\ fst (@decode_jwt_token the_claims svc_a plain_externals tok (world 5000 ∅))
           = Raise (ExpiredSignatureError "Signature has expired")).
Proof.
  split.
  - eexists. eexists. split; [computed |]. split; computed.
  - eexists. eexists. split; [computed |]. split; computed.
Qed.

(** * Further properties *)

(** ** Text *)

Lemma string_length_app a b :
  String.length (a ++ b) = (String.length a + String.length b)%nat.
Proof. induction a as [|c a IH]; simpl; [reflexivity | rewrite IH; reflexivity]. Qed.

Lemma string_app_empty s : s ++ "" = s.
Proof.
  induction s as [|c s IH]; [reflexivity |].
  change (String c (s ++ "") = String c s). f_equal. exact IH.
Qed.

Lemma lower_length s : String.length (lower s) = String.length s.
Proof. induction s as [|c s IH]; simpl; [reflexivity | rewrite IH; reflexivity]. Qed.

Lemma lower_app a b : lower (a ++ b) = lower a ++ lower b.
Proof. induction a as [|c a IH]; simpl; [reflexivity | rewrite IH; reflexivity]. Qed.

Lemma substring_skip a b m :
  substring (String.length a) m (a ++ b) = substring 0 m b.
Proof. induction a as [|c a IH]; simpl; [reflexivity | exact IH]. Qed.

Lemma substring_all b : substring 0 (String.length b) b = b.
Proof. induction b as [|c b IH]; simpl; [reflexivity | rewrite IH; reflexivity]. Qed.

Lemma substring_take a b : substring 0 (String.length a) (a ++ b) = a.
Proof.
  induction a as [|c a IH]; simpl.
  - destruct b; reflexivity.
  - rewrite IH. reflexivity.
Qed.

Lemma substring_split f k :
  (k <= String.length f)%nat ->
  f = substring 0 k f ++ substring k (String.length f - k) f.
Proof.
  revert k. induction f as [|c f IH]; intros k Hk; simpl in Hk.
  - assert (k = 0%nat) by lia. subst k. reflexivity.
  - destruct k as [|k].
    + simpl. rewrite substring_all. reflexivity.
    + change (String c f
              = String c (substring 0 k f
                          ++ substring k (String.length f - k) f)).
      f_equal. apply IH. lia.
Qed.

Lemma lower_substring n m s : lower (substring n m s) = substring n m (lower s).
Proof.
  revert n m. induction s as [|c s IH]; intros n m.
  - destruct n, m; reflexivity.
  - destruct n as [|n].
    + destruct m as [|m]; simpl; [reflexivity | rewrite IH; reflexivity].
    + simpl. apply IH.
Qed.

(** ** Key identifiers *)

(** X1: a reference made of a stem and a suffix that is ".pem" in any
    letter case has the stem as its key identifier. *)
Theorem get_key_id_strips_pem stem suffix :
  lower suffix = ".pem" ->
  get_key_id (stem ++ suffix) = stem.
Proof.
  intros Hs.
  assert (Hlen : String.length suffix = 4%nat).
  { rewrite <- lower_length, Hs. reflexivity. }
  unfold get_key_id, suffixes, endswith.
  change (String.length ".pem") with 4%nat.
  rewrite lower_length, string_length_app, Hlen.
  replace (String.length stem + 4 - 4)%nat with (String.length stem) by lia.
  assert (Hle : (4 <=? String.length stem + 4)%nat = true) by (apply Nat.leb_le; lia).
  rewrite Hle, lower_app, <- (lower_length stem), substring_skip.
  rewrite <- Hs at 1.
  replace 4%nat with (String.length (lower suffix)) at 1 by (rewrite Hs; reflexivity).
  rewrite substring_all, Hs, String.eqb_refl. simpl andb. cbv iota.
  unfold drop_end. rewrite string_length_app, Hlen.
  replace (String.length stem + 4 - 4)%nat with (String.length stem) by lia.
  apply substring_take.
Qed.

Lemma get_key_id_strips_pem_witness :
  lower ".PEM" = ".pem" /\ get_key_id ("keys/svc-2018" ++ ".PEM") = "keys/svc-2018".
Proof.
  split; [reflexivity |]. apply get_key_id_strips_pem. reflexivity.
Defined.

(** X2: the key identifier of a reference is the reference itself or the
    reference without a last part that is ".pem" in some letter case;
    nothing else is ever removed. *)
Theorem get_key_id_prefix file_name :
  exists rest,
    file_name = get_key_id file_name ++ rest
    /\ (rest = "" \/ lower rest = ".pem").
Proof.
  unfold get_key_id, suffixes.
  destruct (endswith (lower file_name) ".pem") eqn:He.
  - unfold endswith in He. change (String.length ".pem") with 4%nat in He.
    rewrite lower_length in He. apply andb_true_iff in He as [Hle Heq].
    apply Nat.leb_le in Hle. apply String.eqb_eq in Heq.
    exists (substring (String.length file_name - 4) 4 file_name). split.
    + unfold drop_end. change (String.length ".pem") with 4%nat.
      rewrite (substring_split file_name (String.length file_name - 4)) at 1 by lia.
      replace (String.length file_name - (String.length file_name - 4))%nat
        with 4%nat by lia.
      reflexivity.
    + right. rewrite lower_substring. exact Heq.
  - exists "". split; [| left; reflexivity].
    symmetry. apply string_app_empty.
Qed.

(** ** Key resolution, further *)

(** The first candidate a key identifier matches is the one that is
    resolved. *)
Lemma get_key_file_name_first_match keys issuer key_id pre f post :
  key_refs_truthy (keys !! issuer) = true ->
  key_id_truthy (Some key_id) = true ->
  key_refs_list (keys !! issuer) = (pre ++ f :: post)%list ->
  (forall ik, In ik pre -> key_id_matches key_id ik = false) ->
  key_id_matches key_id f = true ->
  get_key_file_name keys issuer (Some key_id) = Ok f.
Proof.
  intros Hrefs Hkid Hlist Hpre Hf. unfold get_key_file_name.
  rewrite Hrefs, Hkid, Hlist. simpl negb. cbv iota zeta.
  rewrite List.filter_app. simpl List.filter. rewrite Hf.
  assert (Hnil : List.filter (key_id_matches key_id) pre = []).
  { clear Hlist. induction pre as [|x pre IH]; [reflexivity |]. simpl.
    rewrite (Hpre x) by (left; reflexivity). apply IH.
    intros ik Hin. apply Hpre. right. exact Hin. }
  rewrite Hnil. reflexivity.
Qed.

(** A list of candidates with a member whose identifier is not empty comes
    from a truthy configuration. *)
Lemma key_refs_list_truthy (o : option key_refs) pre f post :
  key_refs_list o = (pre ++ f :: post)%list ->
  get_key_id f <> "" ->
  key_refs_truthy o = true.
Proof.
  intros Hlist Hid. destruct o as [[s|l]|]; simpl in *.
  - destruct pre as [|x pre]; simpl in Hlist.
    + injection Hlist as -> _. destruct f; [contradiction Hid; reflexivity | reflexivity].
    + injection Hlist as _ Hrest. destruct pre; discriminate.
  - destruct l; [destruct pre; discriminate | reflexivity].
  - destruct pre; discriminate.
Qed.

(** X3: a reference the resolver returns is one of the references
    configured for the issuer, and with a non-empty key identifier it is
    one that equals the identifier or has it as derived identifier. *)
Theorem get_key_file_name_sound keys issuer key_id f :
  get_key_file_name keys issuer key_id = Ok f ->
  In f (key_refs_list (keys !! issuer))
  /\ match key_id with
     | Some k => k = "" \/ f = k \/ get_key_id f = k
     | None => True
     end.
Proof.
  unfold get_key_file_name.
  destruct (key_refs_truthy (keys !! issuer)); simpl negb; cbv iota; [| discriminate].
  cbv zeta. destruct key_id as [k|].
  - unfold key_id_truthy. destruct (String.eqb k "") eqn:Hk; simpl negb; cbv iota.
    + apply String.eqb_eq in Hk.
      destruct (key_refs_list (keys !! issuer)) as [|x l]; [discriminate |].
      intros [= <-]. split; [left; reflexivity | left; exact Hk].
    + destruct (List.filter (key_id_matches k) (key_refs_list (keys !! issuer)))
        as [|x l] eqn:Hfilter; [discriminate |].
      intros [= <-].
      assert (Hin : In x (List.filter (key_id_matches k)
                            (key_refs_list (keys !! issuer))))
        by (rewrite Hfilter; left; reflexivity).
      apply List.filter_In in Hin as [Hin Hm]. split; [exact Hin |].
      right. apply key_id_matches_spec. exact Hm.
  - destruct (key_refs_list (keys !! issuer)) as [|x l]; [discriminate |].
    intros [= <-]. split; [left; reflexivity | exact I].
Qed.

Lemma get_key_file_name_sound_witness :
  let keys : gmap string key_refs := {[ "svc" := KeyList ["old.pem"; "new.pem"] ]} in
  get_key_file_name keys "svc" (Some "new") = Ok "new.pem"
  /\ In "new.pem" (key_refs_list (keys !! "svc")).
Proof.
  intros keys.
  assert (E : get_key_file_name keys "svc" (Some "new") = Ok "new.pem")
    by (vm_compute; reflexivity).
  split; [exact E |].
  exact (proj1 (get_key_file_name_sound keys "svc" (Some "new") "new.pem" E)).
Defined.

(** X4: with no key identifier, or an empty one, the resolver returns the
    first reference configured for the issuer; "No key matches the given
    key_id" cannot arise. *)
Theorem get_key_file_name_without_key_id keys issuer key_id :
  key_refs_truthy (keys !! issuer) = true ->
  key_id_truthy key_id = false ->
  exists first rest,
    key_refs_list (keys !! issuer) = first :: rest
    /\ get_key_file_name keys issuer key_id = Ok first.
Proof.
  intros Hrefs Hkid. unfold get_key_file_name. rewrite Hrefs. simpl negb.
  cbv iota zeta. rewrite Hkid.
  destruct (keys !! issuer) as [[s|l]|]; simpl in *.
  - exists s, []. destruct key_id; split; reflexivity.
  - destruct l as [|x l]; [discriminate |].
    exists x, l. destruct key_id; split; reflexivity.
  - discriminate.
Qed.

Lemma get_key_file_name_without_key_id_witness :
  let keys : gmap string key_refs := {[ "svc" := KeyList ["old.pem"; "new.pem"] ]} in
  get_key_file_name keys "svc" (Some "") = Ok "old.pem".
Proof.
  intros keys.
  destruct (get_key_file_name_without_key_id keys "svc" (Some "") eq_refl eq_refl)
    as (first & rest & Hlist & Hres).
  rewrite Hres. f_equal.
  vm_compute in Hlist. injection Hlist as <- _. reflexivity.
Defined.

(** X5: key rotation.  A reference whose derived identifier is not empty
    is resolved by that identifier, provided no reference before it in the
    issuer's list equals the identifier or has it as derived identifier. *)
Theorem get_key_file_name_by_derived_id keys issuer pre f post :
  key_refs_list (keys !! issuer) = (pre ++ f :: post)%list ->
  (forall ik, In ik pre -> ik <> get_key_id f /\ get_key_id ik <> get_key_id f) ->
  get_key_id f <> "" ->
  get_key_file_name keys issuer (Some (get_key_id f)) = Ok f.
Proof.
  intros Hlist Hpre Hid.
  apply (get_key_file_name_first_match keys issuer (get_key_id f) pre f post).
  - eapply key_refs_list_truthy; eassumption.
  - unfold key_id_truthy. apply negb_true_iff, String.eqb_neq. exact Hid.
  - exact Hlist.
  - intros ik Hin. destruct (key_id_matches (get_key_id f) ik) eqn:Hm; [| reflexivity].
    apply key_id_matches_spec in Hm. destruct (Hpre ik Hin) as [Hv Hd].
    destruct Hm; contradiction.
  - apply key_id_matches_spec. right. reflexivity.
Qed.

Lemma get_key_file_name_by_derived_id_witness :
  let keys : gmap string key_refs := {[ "svc" := KeyList ["old.pem"; "new.pem"] ]} in
  get_key_file_name keys "svc" (Some "new") = Ok "new.pem".
Proof.
  intros keys.
  apply (get_key_file_name_by_derived_id keys "svc" ["old.pem"] "new.pem" []).
  - vm_compute. reflexivity.
  - intros ik [<- | []]. split; discriminate.
  - discriminate.
Defined.

(** X6: the identifier under which a token is signed leads back to the
    signing reference.  The reference resolved with no key identifier is
    resolved again by its own derived identifier, when that is not
    empty. *)
Theorem get_key_file_name_round_trip keys issuer f :
  get_key_file_name keys issuer None = Ok f ->
  get_key_id f <> "" ->
  get_key_file_name keys issuer (Some (get_key_id f)) = Ok f.
Proof.
  intros Hres Hid.
  assert (Hlist : exists rest, key_refs_list (keys !! issuer) = f :: rest).
  { unfold get_key_file_name in Hres.
    destruct (key_refs_truthy (keys !! issuer)); simpl negb in Hres;
      cbv iota zeta in Hres; [| discriminate].
    destruct (key_refs_list (keys !! issuer)) as [|x l]; [discriminate |].
    injection Hres as ->. eauto. }
  destruct Hlist as [rest Hlist].
  apply (get_key_file_name_first_match keys issuer (get_key_id f) [] f rest).
  - eapply (key_refs_list_truthy _ [] f rest); eassumption.
  - unfold key_id_truthy. apply negb_true_iff, String.eqb_neq. exact Hid.
  - exact Hlist.
  - intros ik [].
  - apply key_id_matches_spec. right. reflexivity.
Qed.

Lemma get_key_file_name_round_trip_witness :
  let keys : gmap string key_refs := {[ "svc" := KeyList ["old.pem"; "new.pem"] ]} in
  get_key_file_name keys "svc" (Some (get_key_id "old.pem")) = Ok "old.pem".
Proof.
  intros keys. apply get_key_file_name_round_trip.
  - vm_compute. reflexivity.
  - discriminate.
Defined.

(** ** Key loading *)

Lemma filter_head_in {A} (p : A -> bool) (l : list A) x rest :
  List.filter p l = x :: rest -> In x l /\ p x = true.
Proof.
  intros Hf. apply List.filter_In. rewrite Hf. left. reflexivity.
Qed.

(** X7: the key identifier [get_public_key_and_key_id] returns for a
    requested non-empty identifier is the requested one, or, when a
    reference equals the request verbatim, the request without its ".pem";
    the call reads the one resolved file, loads it, and touches neither the
    dictionaries nor the clock. *)
Theorem get_public_key_and_key_id_key_id `{Settings} `{Externals}
    issuer k s key kid s' :
  get_public_key_and_key_id issuer (Some k) s = (Ok (key, kid), s') ->
  k <> "" ->
  (kid = k \/ kid = get_key_id k)
  /\ heap s' = heap s /\ reads s' = reads s
  /\ exists f,
       In f (key_refs_list (PUBLIC_KEYS !! issuer))
       /\ kid = get_key_id f
       /\ trace s'
          = (trace s ++ [EvReadFile (key_file_path f); EvLoadPublicKey])%list.
Proof.
  intros E Hk. rewrite get_public_key_and_key_id_run in E.
  destruct (get_key_file_name PUBLIC_KEYS issuer (Some k)) as [f|] eqn:Hf;
    [| discriminate].
  cbv zeta in E.
  destruct (open_read (key_file_path f)); [| discriminate].
  destruct (load_pem_public_key a); [| discriminate].
  injection E as <- <- <-.
  unfold get_key_file_name in Hf.
  destruct (key_refs_truthy (PUBLIC_KEYS !! issuer)); simpl negb in Hf;
    cbv iota zeta in Hf; [| discriminate].
  assert (Hkt : key_id_truthy (Some k) = true).
  { unfold key_id_truthy. apply negb_true_iff, String.eqb_neq. exact Hk. }
  rewrite Hkt in Hf.
  destruct (List.filter (key_id_matches k) (key_refs_list (PUBLIC_KEYS !! issuer)))
    as [|x rest] eqn:Hfilter; [discriminate |].
  injection Hf as ->.
  destruct (filter_head_in _ _ _ _ Hfilter) as [Hin Hm].
  apply key_id_matches_spec in Hm.
  split; [| split; [reflexivity | split; [reflexivity |]]].
  - destruct Hm as [-> | ->]; [right | left]; reflexivity.
  - exists f. split; [exact Hin |]. split; [reflexivity |].
    simpl. rewrite <- app_assoc. reflexivity.
Qed.

Lemma get_public_key_and_key_id_key_id_witness :
  let s := world 1000 ∅ in
  exists key s',
    @get_public_key_and_key_id svc_a plain_externals "svc-b" (Some "svc-b.pem") s
    = (Ok (key, "svc-b"), s')
    /\ ("svc-b" = "svc-b.pem" \/ "svc-b" = get_key_id "svc-b.pem").
Proof.
  intros s. eexists. eexists.
  assert (E : @get_public_key_and_key_id svc_a plain_externals "svc-b"
                (Some "svc-b.pem") s
              = (Ok ("key pair B", "svc-b"),
                 snd (@get_public_key_and_key_id svc_a plain_externals "svc-b"
                        (Some "svc-b.pem") s)))
    by (vm_compute; reflexivity).
  split; [exact E |].
  refine (proj1 (@get_public_key_and_key_id_key_id svc_a plain_externals
                   "svc-b" "svc-b.pem" s _ "svc-b" _ E _)).
  discriminate.
Defined.

(** ** Payload builders *)

Section Builders.
Context `{Claims}.

(** X8: a session payload holds the token type SESSION, the primary key of
    the session, the primary key and the email of the user, and no other
    claim: no scopes, issuer, audience, expiration or time of issue. *)
Theorem create_session_payload_claims (st : SessionToken) (u : User) :
  claims_distinct = true ->
  let p := create_session_payload st u in
  p !! TOKEN = Some (VStr TOKEN_SESSION)
  /\ p !! SESSION_ID = Some (session_pk st)
  /\ p !! USER_ID = Some (user_pk u)
  /\ p !! EMAIL = Some (user_email u)
  /\ forall k, k <> TOKEN -> k <> SESSION_ID -> k <> USER_ID -> k <> EMAIL ->
               p !! k = None.
Proof.
  intros Hd p. names_distinct Hd as Htypes. unfold p, create_session_payload.
  repeat split.
  - rewrite !lookup_insert_ne by congruence. apply lookup_insert_eq.
  - rewrite !lookup_insert_ne by congruence. apply lookup_insert_eq.
  - rewrite !lookup_insert_ne by congruence. apply lookup_insert_eq.
  - apply lookup_insert_eq.
  - intros k Ht Hs Hu He. rewrite !lookup_insert_ne by congruence.
    apply lookup_empty.
Qed.

(** X9: an authorization payload is the session payload for the same
    session and user with the token type AUTHORIZATION and an empty list of
    scopes. *)
Theorem create_authorization_payload_of_session (st : SessionToken) (u : User) :
  claims_distinct = true ->
  create_authorization_payload st u
  = <[SCOPES := VList []]>
      (<[TOKEN := VStr TOKEN_AUTHORIZATION]> (create_session_payload st u)).
Proof.
  intros Hd. names_distinct Hd as Htypes.
  unfold create_authorization_payload, create_session_payload.
  apply map_eq. intros k. rewrite !lookup_insert.
  repeat case_decide; subst; congruence.
Qed.

End Builders.

Lemma create_session_payload_claims_witness :
  session_payload !! "scope" = None /\ session_payload !! "sid" = Some (VInt 7).
Proof.
  destruct (@create_session_payload_claims the_claims session_7 alice eq_refl)
    as (_ & Hsid & _ & _ & Hother).
  split; [apply Hother; discriminate | exact Hsid].
Defined.

Lemma create_authorization_payload_of_session_witness :
  authorization_payload
  = <["scope" := VList []]> (<["token" := VStr "authorization"]> session_payload).
Proof.
  exact (@create_authorization_payload_of_session the_claims session_7 alice eq_refl).
Defined.

(** ** Issuance, further *)

Section IssuanceFurther.
Context `{Claims} `{Settings} `{Externals}.

(** X10: when the token type is unknown, or the issuer or the audience
    cannot be resolved, [encode_jwt_token] fails with a [RuntimeError] and
    leaves the payload and the world exactly as it found them: nothing is
    defaulted, no clock is read, no key file is opened. *)
Theorem encode_jwt_token_rejects_unresolved r s :
  unknown_token_type (dict_get (deref s r) TOKEN) = true
  \/ final_issuer (deref s r) = None
  \/ final_audience (deref s r) = None ->
  exists msg, encode_jwt_token r s = (Raise (RuntimeError msg), s).
Proof.
  intros Hcase.
  rewrite encode_jwt_token_tail, bind_run, encode_check_type_run.
  destruct (unknown_token_type (dict_get (deref s r) TOKEN)) eqn:Hu;
    [eexists; reflexivity |].
  destruct Hcase as [Hc | Hcase]; [discriminate |].
  unfold tail_iss. rewrite bind_run, encode_default_issuer_run.
  unfold final_issuer, final_audience in Hcase.
  destruct (truthy (dict_get (deref s r) ISSUER)) eqn:Ht.
  - destruct Hcase as [Hc | Hc]; [discriminate |].
    unfold tail_aud. rewrite bind_run, encode_default_audience_run.
    destruct (truthy (dict_get (deref s r) AUDIENCE)); [discriminate |].
    cbv zeta.
    destruct (py_eq _ (VStr TOKEN_SESSION)), SESSION_AUDIENCE; try discriminate;
      destruct (py_eq _ (VStr TOKEN_AUTHORIZATION)), AUTHORIZATION_AUDIENCE;
      try discriminate; destruct IDENTITY; try discriminate;
      eexists; reflexivity.
  - destruct IDENTITY as [own|]; [| eexists; reflexivity].
    exfalso. destruct Hcase as [Hc | Hc]; [discriminate |].
    destruct (truthy (dict_get (deref s r) AUDIENCE)); [discriminate |].
    destruct (py_eq _ (VStr TOKEN_SESSION)), SESSION_AUDIENCE; try discriminate;
      destruct (py_eq _ (VStr TOKEN_AUTHORIZATION)), AUTHORIZATION_AUDIENCE;
      discriminate.
Qed.

(** X11: once token type, issuer and audience are in order, the caller's
    dictionary ends up holding the defaults whether or not a token is
    made: as lines 46-69 wrote them when no signing key was got, in which
    case the call fails with the error of the key step, and with the time
    claims rewritten to integers once the library was called. *)
Theorem encode_jwt_token_defaults_survive_failure r s v a :
  claims_distinct = true ->
  unknown_token_type (dict_get (deref s r) TOKEN) = false ->
  final_issuer (deref s r) = Some v ->
  final_audience (deref s r) = Some a ->
  let defaulted := with_defaults (deref s r) v a (clock s) (reads s) in
  match signing_key defaulted with
  | Raise e =>
      fst (encode_jwt_token r s) = Raise e
      /\ deref (snd (encode_jwt_token r s)) r = defaulted
  | Ok _ => deref (snd (encode_jwt_token r s)) r = jwt_int_dates defaulted
  end.
Proof.
  intros Hd Hknown Hv Ha defaulted.
  destruct (encode_jwt_token_view r s v a Hd Hknown Hv Ha) as (Hout & Hafter & _).
  fold defaulted in Hout, Hafter. unfold signed in Hout.
  unfold after_signing in Hafter.
  destruct (signing_key defaulted) as [[key key_id]|e]; auto.
Qed.

(** The type of a payload the call lets through is one of the two. *)
Lemma known_token_type_inv ty :
  unknown_token_type (VStr ty) = false ->
  ty = TOKEN_SESSION \/ ty = TOKEN_AUTHORIZATION.
Proof.
  unfold unknown_token_type. intros Hk.
  apply negb_false_iff, orb_true_iff in Hk.
  destruct Hk as [Hk | Hk]; apply py_eq_text in Hk; injection Hk as ->; auto.
Qed.

(** X12: after a call that returns a token and defaulted both times, the
    dictionary (and so the token) holds as expiration the first reading
    of the clock plus the validity and as time of issue the next reading,
    both as integers; with a clock that does not run backwards the
    validity counted from the time of issue is at most the configured
    one. *)
Theorem encode_jwt_token_lifetime r s tok s1 ty ttl :
  claims_distinct = true ->
  claims_registered = true ->
  encode_jwt_token r s = (Ok tok, s1) ->
  dict_get (deref s r) TOKEN = VStr ty ->
  deref s r !! EXPIRATION_TIME = None ->
  deref s r !! ISSUED_AT = None ->
  (if String.eqb ty TOKEN_SESSION then SESSION_EXPIRATION
   else AUTHORIZATION_EXPIRATION) = Some ttl ->
  clock s (reads s) <= clock s (S (reads s)) ->
  exists e i,
    deref s1 r !! EXPIRATION_TIME = Some (VInt e)
    /\ deref s1 r !! ISSUED_AT = Some (VInt i)
    /\ e = clock s (reads s) + ttl
    /\ i = clock s (S (reads s))
    /\ e - i <= ttl.
Proof.
  intros Hd Hr E Htok Hexp Hiat Hcfg Hmono.
  destruct (claims_registered_names Hr) as (_ & _ & Ne & Nt).
  destruct (encode_jwt_token_ok_view r s tok s1 Hd E)
    as (v & a & issuer & file_name & data & key & Hknown & _ & _ & _ & _ & _ & _
        & _ & Dafter & _).
  assert (Hty : ty = TOKEN_SESSION \/ ty = TOKEN_AUTHORIZATION).
  { apply known_token_type_inv. rewrite <- Htok. exact Hknown. }
  assert (Httl : expiration_ttl (deref s r) = Some ttl).
  { rewrite (expiration_ttl_of_type _ ty Hd Htok Hty)
      by (rewrite (dict_get_absent _ _ Hexp); reflexivity).
    exact Hcfg. }
  exists (clock s (reads s) + ttl), (clock s (S (reads s))).
  rewrite Dafter, !lookup_jwt_int_dates.
  rewrite with_defaults_expiration, with_defaults_issued_at by exact Hd.
  rewrite Httl, (dict_get_absent _ _ Hiat). simpl truthy. cbv iota.
  simpl fmap. rewrite Ne, Nt.
  repeat split. lia.
Qed.

(** A dictionary that holds its issuer and audience and needs neither an
    expiration nor a time of issue is its own extension with the
    defaults, and takes no reading of the clock. *)
Lemma with_defaults_settled (q : gmap string value) v a now n :
  q !! ISSUER = Some v ->
  q !! AUDIENCE = Some a ->
  expiration_ttl q = None ->
  truthy (dict_get q ISSUED_AT) = true ->
  with_defaults q v a now n = q /\ readings q = 0%nat.
Proof.
  intros Hi Ha Httl Hiat. unfold with_defaults, readings.
  rewrite Httl, Hiat. split; [| reflexivity].
  rewrite (insert_id _ _ _ Hi), (insert_id _ _ _ Ha). reflexivity.
Qed.

(** X13: the payload of a call that returned a token is settled.  A
    further call on the same dictionary leaves it as it is and reads no
    clock, so the token it makes carries the expiration and the time of
    issue of the first call, provided these are truthy as the integers
    the library has left: the time of issue is not the epoch itself, and
    no expiration is due (there is one that is not the epoch, or no
    validity is configured for the type). *)
Theorem encode_jwt_token_again r s tok s1 s2 :
  claims_distinct = true ->
  claims_registered = true ->
  encode_jwt_token r s = (Ok tok, s1) ->
  deref s2 r = deref s1 r ->
  truthy (dict_get (deref s1 r) ISSUED_AT) = true ->
  expiration_ttl (deref s1 r) = None ->
  deref (snd (encode_jwt_token r s2)) r = deref s1 r
  /\ reads (snd (encode_jwt_token r s2)) = reads s2
  /\ fst (encode_jwt_token r s2) = signed (deref s1 r).
Proof.
  intros Hd Hr E Hsame Hiat Httl. names_distinct Hd as Htypes.
  destruct (claims_registered_names Hr) as (_ & Na & _ & _).
  destruct (encode_jwt_token_ok_view r s tok s1 Hd E)
    as (v & a & issuer & file_name & data & key & Hknown & Hv & Ha & -> & _ & _ & _
        & _ & Dafter & _).
  set (p := deref s r) in *. set (q := deref s1 r) in *.
  assert (Hother : forall k x,
             with_defaults p (VStr issuer) a (clock s) (reads s) !! k = Some x ->
             existsb (String.eqb k) jwt_time_claims = false \/ json_native x = true ->
             q !! k = Some x).
  { intros k x Hk Hx. rewrite Dafter, lookup_jwt_int_dates, Hk. simpl. f_equal.
    destruct Hx; [apply jwt_int_date_other | apply jwt_int_date_native]; assumption. }
  assert (Hqi : q !! ISSUER = Some (VStr issuer)).
  { apply Hother; [apply with_defaults_issuer, Hd | right; reflexivity]. }
  assert (Hqa : q !! AUDIENCE = Some a).
  { apply Hother; [apply with_defaults_audience, Hd |].
    left. rewrite Na. reflexivity. }
  assert (Hqt : dict_get q TOKEN = dict_get p TOKEN).
  { unfold unknown_token_type in Hknown.
    apply negb_false_iff, orb_true_iff in Hknown.
    assert (Hp : exists ty, p !! TOKEN = Some (VStr ty)).
    { unfold dict_get in Hknown.
      destruct (p !! TOKEN) as [x|]; [| destruct Hknown; discriminate].
      destruct Hknown as [Hk | Hk]; apply py_eq_text in Hk; subst x; eauto. }
    destruct Hp as [ty Hp].
    rewrite (dict_get_lookup _ _ _ Hp). apply dict_get_lookup.
    apply Hother; [| right; reflexivity].
    rewrite with_defaults_other by congruence. exact Hp. }
  assert (Hfi : final_issuer q = Some (VStr issuer)).
  { unfold final_issuer in *. rewrite (dict_get_lookup _ _ _ Hqi).
    destruct (truthy (VStr issuer)) eqn:Htv; [reflexivity |].
    destruct (truthy (dict_get p ISSUER)) eqn:Htp; [| exact Hv].
    injection Hv as Hv. rewrite Hv in Htp. congruence. }
  assert (Hfa : final_audience q = Some a).
  { unfold final_audience in *. rewrite (dict_get_lookup _ _ _ Hqa), Hqt.
    destruct (truthy a) eqn:Hta; [reflexivity |].
    destruct (truthy (dict_get p AUDIENCE)) eqn:Htp; [| exact Ha].
    injection Ha as Ha. rewrite Ha in Htp. congruence. }
  assert (Hknown2 : unknown_token_type (dict_get (deref s2 r) TOKEN) = false).
  { rewrite Hsame. fold q. rewrite Hqt. exact Hknown. }
  rewrite <- Hsame in Hfi, Hfa.
  destruct (encode_jwt_token_view r s2 _ a Hd Hknown2 Hfi Hfa)
    as (Hout & Hafter & _ & Hreads).
  cbv zeta in Hout, Hafter. rewrite Hsame in Hout, Hafter, Hreads.
  fold q in Hout, Hafter, Hreads.
  destruct (with_defaults_settled q (VStr issuer) a (clock s2) (reads s2)
              Hqi Hqa Httl Hiat) as [Hfix Hzero].
  rewrite Hfix in Hout, Hafter. rewrite Hzero in Hreads.
  split; [| split; [lia | exact Hout]].
  rewrite Hafter. unfold after_signing.
  destruct (signing_key q); [| reflexivity].
  rewrite Dafter. apply jwt_int_dates_idemp.
Qed.

End IssuanceFurther.

Lemma encode_jwt_token_rejects_unresolved_witness :
  let s := world 1000 {[ "token" := VStr "refresh"; "sid" := VInt 7 ]} in
  exists msg,
    @encode_jwt_token the_claims svc_a plain_externals 0%nat s
    = (Raise (RuntimeError msg), s).
Proof.
  intros s.
  apply (@encode_jwt_token_rejects_unresolved the_claims svc_a plain_externals 0%nat s).
  left. vm_compute. reflexivity.
Defined.

Lemma encode_jwt_token_defaults_survive_failure_witness :
  let s := world 1000 foreign_session_payload in
  let s' := snd (@encode_jwt_token the_claims svc_a plain_externals 0%nat s) in
  fst (@encode_jwt_token the_claims svc_a plain_externals 0%nat s)
  = Raise (RuntimeError "Private key for specified issuer was not found in settings")
  /\ deref s' 0%nat !! "iat" = Some (VDatetime 1001)
  /\ deref s 0%nat !! "iat" = None.
Proof.
  intros s s'.
  destruct (@encode_jwt_token_defaults_survive_failure the_claims svc_a
              plain_externals 0%nat s (VStr "svc-b") (VList [VStr "svc-a"]))
    as [Hout Hafter].
  - computed.
  - computed.
  - computed.
  - computed.
  - split; [exact Hout |]. split; [| computed].
    unfold s'. rewrite Hafter. computed.
Defined.

Lemma encode_jwt_token_lifetime_witness :
  let s := world 1000 session_payload in
  let after := deref (snd (@encode_jwt_token the_claims svc_a plain_externals 0%nat s))
                 0%nat in
  exists e i,
    after !! "exp" = Some (VInt e) /\ after !! "iat" = Some (VInt i)
    /\ e - i <= 3600.
Proof.
  intros s after.
  assert (E : exists tok,
             @encode_jwt_token the_claims svc_a plain_externals 0%nat s
             = (Ok tok, snd (@encode_jwt_token the_claims svc_a plain_externals
                               0%nat s))).
  { eexists. computed. }
  destruct E as [tok E].
  destruct (@encode_jwt_token_lifetime the_claims svc_a plain_externals 0%nat s
              tok _ "session" 3600 eq_refl eq_refl E)
    as (e & i & He & Hi & _ & _ & Hle).
  - computed.
  - computed.
  - computed.
  - computed.
  - vm_compute. discriminate.
  - exists e, i. repeat split; assumption.
Defined.

Lemma encode_jwt_token_again_witness :
  let s := world 1000 session_payload in
  let s1 := snd (@encode_jwt_token the_claims svc_a plain_externals 0%nat s) in
  deref (snd (@encode_jwt_token the_claims svc_a plain_externals 0%nat s1)) 0%nat
  = deref s1 0%nat.
Proof.
  intros s s1.
  assert (E : exists tok,
             @encode_jwt_token the_claims svc_a plain_externals 0%nat s = (Ok tok, s1)).
  { eexists. computed. }
  destruct E as [tok E].
  refine (proj1 (@encode_jwt_token_again the_claims svc_a plain_externals
                   0%nat s tok s1 s1 eq_refl eq_refl E eq_refl _ _)).
  - computed.
  - computed.
Defined.

(** ** Verification, further *)

Section VerificationFurther.
Context `{Claims} `{Settings} `{Externals}.

(** X14: [decode_jwt_token] returns a payload exactly when the verifying
    call returned it and it has a known token type, comes from the
    verifier's own identity or is an AUTHORIZATION token, and has truthy
    session and user ids. *)
Theorem decode_jwt_token_accepts_iff tok s p :
  fst (decode_jwt_token tok s) = Ok p
  <-> fst (decode_jwt_token_verified tok s) = Ok p
      /\ unknown_token_type (dict_get p TOKEN) = false
      /\ (py_eq (dict_get p ISSUER) (opt_value IDENTITY) = true
          \/ py_eq (dict_get p TOKEN) (VStr TOKEN_AUTHORIZATION) = true)
      /\ truthy (dict_get p SESSION_ID) = true
      /\ truthy (dict_get p USER_ID) = true.
Proof.
  rewrite decode_jwt_token_run.
  destruct (decode_jwt_token_verified tok s) as [[q|e] s1]; simpl.
  - unfold decode_jwt_token_checks. split.
    + destruct (unknown_token_type (dict_get q TOKEN)) eqn:Hu; [discriminate |].
      destruct (py_eq (dict_get q ISSUER) (opt_value IDENTITY)) eqn:Hi;
        destruct (py_eq (dict_get q TOKEN) (VStr TOKEN_AUTHORIZATION)) eqn:Ha;
        simpl; try discriminate;
        destruct (truthy (dict_get q SESSION_ID)) eqn:Hs; simpl; try discriminate;
        destruct (truthy (dict_get q USER_ID)) eqn:Huid; simpl; try discriminate;
        intros [= <-]; rewrite ?Hu, ?Hi, ?Ha, ?Hs, ?Huid; auto.
    + intros ([= <-] & Hu & Hor & Hs & Huid). rewrite Hu, Hs, Huid.
      destruct Hor as [-> | ->]; simpl; rewrite ?andb_false_r; reflexivity.
  - split; [discriminate | intros [Hv _]; discriminate].
Qed.

(** X15: a token whose unverified claims have no issuer is rejected with
    [MissingRequiredClaimError] for the issuer claim, after the two
    unverified reads and nothing else. *)
Theorem decode_jwt_token_missing_issuer tok s header body :
  jwt_get_unverified_header tok = Ok header ->
  jwt_decode_unverified tok = Ok body ->
  body !! ISSUER = None ->
  fst (decode_jwt_token tok s) = Raise (MissingRequiredClaimError ISSUER)
  /\ trace (snd (decode_jwt_token tok s))
     = (trace s ++ [EvUnverifiedHeader; EvUnverifiedDecode])%list.
Proof.
  intros Hheader Hbody Hiss.
  assert (E : decode_jwt_token_verified tok s
              = (Raise (MissingRequiredClaimError ISSUER),
                 logged EvUnverifiedDecode (logged EvUnverifiedHeader s))).
  { unfold decode_jwt_token_verified, call.
    rewrite bind_run, Hheader. cbv beta iota.
    rewrite bind_run, Hbody. cbv beta iota.
    rewrite Hiss. reflexivity. }
  rewrite decode_jwt_token_run, E. simpl.
  split; [reflexivity |]. rewrite <- app_assoc. reflexivity.
Qed.

(** X16: when the issuer passes the allow-list but no public key reference
    resolves for it and the key identifier of the header, the call fails
    with the key resolver's own error, and no key file has been read and
    no verification attempted. *)
Theorem decode_jwt_token_unresolved_key tok s header body iss e :
  jwt_get_unverified_header tok = Ok header ->
  jwt_decode_unverified tok = Ok body ->
  body !! ISSUER = Some iss ->
  match ACCEPTED_ISSUERS with
  | Some accepted => In (text_type iss) accepted
  | None => True
  end ->
  get_key_file_name PUBLIC_KEYS (text_type iss) (header_key_id header) = Raise e ->
  fst (decode_jwt_token tok s) = Raise e
  /\ trace (snd (decode_jwt_token tok s))
     = (trace s ++ [EvUnverifiedHeader; EvUnverifiedDecode])%list.
Proof.
  intros Hheader Hbody Hiss Hlist Hkey.
  rewrite decode_jwt_token_run,
    (decode_jwt_token_verified_peeked tok s header body iss Hheader Hbody Hiss).
  assert (Hgate : match ACCEPTED_ISSUERS with
                  | Some accepted =>
                      negb (existsb (String.eqb (text_type iss)) accepted)
                  | None => false
                  end = false).
  { destruct ACCEPTED_ISSUERS as [accepted|]; [| reflexivity].
    apply negb_false_iff, existsb_exists. exists (text_type iss).
    split; [exact Hlist | apply String.eqb_refl]. }
  rewrite Hgate, get_public_key_and_key_id_run, Hkey. simpl.
  split; [reflexivity |]. rewrite <- app_assoc. reflexivity.
Qed.

(** X18: every payload [decode_jwt_token] returns comes from a token whose
    unverified issuer is on the allow-list when one is configured, and was
    returned by the verifying call under a public key loaded from a
    reference configured for that issuer, with that issuer expected and
    the verifier's identity as audience. *)
Theorem decode_jwt_token_accepted_inv tok s p :
  fst (decode_jwt_token tok s) = Ok p ->
  exists header body iss f data key,
    jwt_get_unverified_header tok = Ok header
    /\ jwt_decode_unverified tok = Ok body
    /\ body !! ISSUER = Some iss
    /\ match ACCEPTED_ISSUERS with
       | Some accepted => In (text_type iss) accepted
       | None => True
       end
    /\ get_key_file_name PUBLIC_KEYS (text_type iss) (header_key_id header) = Ok f
    /\ In f (key_refs_list (PUBLIC_KEYS !! text_type iss))
    /\ open_read (key_file_path f) = Ok data
    /\ load_pem_public_key data = Ok key
    /\ jwt_decode tok key VERIFY_SIGNATURE allowed_algorithms
         {| verify_exp := VERIFY_EXPIRATION; verify_aud := true;
            verify_iss := true |}
         EXPIRATION_LEEWAY IDENTITY (text_type iss) (clock s (reads s)) = Ok p.
Proof.
  intros Hok. rewrite decode_jwt_token_run in Hok.
  destruct (decode_jwt_token_verified tok s) as [[q|e] s1] eqn:E;
    simpl in Hok; [| discriminate].
  assert (q = p).
  { unfold decode_jwt_token_checks in Hok.
    repeat match type of Hok with
           | (if ?c then _ else _) = _ => destruct c; try discriminate
           end.
    congruence. }
  subst q. clear Hok.
  destruct (jwt_get_unverified_header tok) as [header|e0] eqn:Hheader.
  2: { unfold decode_jwt_token_verified, call in E.
       rewrite bind_run, Hheader in E. discriminate. }
  destruct (jwt_decode_unverified tok) as [body|e1] eqn:Hbody.
  2: { unfold decode_jwt_token_verified, call in E.
       rewrite bind_run, Hheader in E. cbv beta iota in E.
       rewrite bind_run, Hbody in E. discriminate. }
  destruct (body !! ISSUER) as [iss|] eqn:Hiss.
  2: { unfold decode_jwt_token_verified, call in E.
       rewrite bind_run, Hheader in E. cbv beta iota in E.
       rewrite bind_run, Hbody in E. cbv beta iota in E.
       rewrite Hiss in E. discriminate. }
  rewrite (decode_jwt_token_verified_peeked tok s header body iss
             Hheader Hbody Hiss) in E.
  exists header, body, iss.
  destruct (match ACCEPTED_ISSUERS with
            | Some accepted =>
                negb (existsb (String.eqb (text_type iss)) accepted)
            | None => false
            end) eqn:Hgate; [discriminate |].
  rewrite get_public_key_and_key_id_run in E.
  destruct (get_key_file_name PUBLIC_KEYS (text_type iss) (header_key_id header))
    as [f|] eqn:Hf; [| discriminate].
  cbv zeta in E.
  destruct (open_read (key_file_path f)) as [data|] eqn:Hread; [| discriminate].
  destruct (load_pem_public_key data) as [key|] eqn:Hload; [| discriminate].
  simpl in E. injection E as E _.
  exists f, data, key. repeat split; try assumption; try reflexivity.
  - destruct ACCEPTED_ISSUERS as [accepted|]; [| exact I].
    apply negb_false_iff, existsb_exists in Hgate as (x & Hin & Heq).
    apply String.eqb_eq in Heq. subst x. exact Hin.
  - unfold get_key_file_name in Hf.
    destruct (key_refs_truthy (PUBLIC_KEYS !! text_type iss)); simpl negb in Hf;
      cbv iota zeta in Hf; [| discriminate].
    destruct (header_key_id header) as [k|].
    + destruct (key_id_truthy (Some k)).
      * destruct (List.filter (key_id_matches k) _) as [|x rest] eqn:Hfilter;
          [discriminate |].
        injection Hf as ->. apply (filter_head_in _ _ _ _ Hfilter).
      * destruct (key_refs_list _) as [|x rest]; [discriminate |].
        injection Hf as ->. left. reflexivity.
    + destruct (key_refs_list _) as [|x rest]; [discriminate |].
      injection Hf as ->. left. reflexivity.
Qed.

End VerificationFurther.

Lemma decode_jwt_token_missing_issuer_witness :
  let s := world 1000 ∅ in
  fst (@decode_jwt_token the_claims svc_a plain_externals anonymous_token s)
  = Raise (MissingRequiredClaimError "iss").
Proof.
  intros s.
  apply (@decode_jwt_token_missing_issuer the_claims svc_a plain_externals
           anonymous_token s (tk_header anonymous_token) (tk_claims anonymous_token)).
  - reflexivity.
  - reflexivity.
  - computed.
Defined.

Lemma decode_jwt_token_unresolved_key_witness :
  let s := world 1000 ∅ in
  fst (@decode_jwt_token the_claims svc_a plain_externals rotated_token s)
  = Raise (InvalidKeyError "No key matches the given key_id")
  /\ trace (snd (@decode_jwt_token the_claims svc_a plain_externals rotated_token s))
     = [EvUnverifiedHeader; EvUnverifiedDecode].
Proof.
  intros s.
  apply (@decode_jwt_token_unresolved_key the_claims svc_a plain_externals
           rotated_token s (tk_header rotated_token) (tk_claims rotated_token)
           (VStr "svc-b")).
  - reflexivity.
  - reflexivity.
  - computed.
  - simpl. right. left. reflexivity.
  - computed.
Defined.

Lemma decode_jwt_token_accepted_inv_witness :
  let s := world 1000 ∅ in
  fst (@decode_jwt_token the_claims svc_a plain_externals own_session_token s)
  = Ok (tk_claims own_session_token)
  /\ exists iss,
       tk_claims own_session_token !! "iss" = Some iss
       /\ In (@text_type plain_externals iss) ["svc-a"; "svc-b"].
Proof.
  intros s.
  assert (E : fst (@decode_jwt_token the_claims svc_a plain_externals
                     own_session_token s) = Ok (tk_claims own_session_token))
    by computed.
  split; [exact E |].
  destruct (@decode_jwt_token_accepted_inv the_claims svc_a plain_externals
              own_session_token s (tk_claims own_session_token) E)
    as (header & body & iss & f & data & key & _ & Hbody & Hiss & Hlist & _).
  simpl in Hbody. injection Hbody as <-.
  exists iss. split; [exact Hiss | exact Hlist].
Defined.

(** ** Identity resolution, further *)

Section IdentityFurther.
Context `{Claims} `{Settings} `{Datastore}.

(** X19: [authenticate_payload] returns a user exactly when the configured
    lookup finds that user and the user is active; it never returns an
    inactive user. *)
Theorem authenticate_payload_ok_iff (payload : gmap string value) (user : User) :
  authenticate_payload payload = Ok user
  <-> looked_up payload = Some user /\ is_active user = true.
Proof.
  unfold authenticate_payload, looked_up.
  destruct VERIFY_SESSION_TOKEN.
  - destruct (active_session_user _ _) as [u|].
    + destruct (is_active u) eqn:Hact; simpl.
      * split; [intros [= <-]; auto | intros [[= <-] _]; reflexivity].
      * split; [discriminate | intros [[= <-] Ha]; congruence].
    + split; [discriminate | intros [Hl _]; discriminate].
  - destruct (get_user _) as [u|].
    + destruct (is_active u) eqn:Hact; simpl.
      * split; [intros [= <-]; auto | intros [[= <-] _]; reflexivity].
      * split; [discriminate | intros [[= <-] Ha]; congruence].
    + split; [discriminate | intros [Hl _]; discriminate].
Qed.

End IdentityFurther.

(** ** From issuance to identity *)

Section Pipeline.
Context `{Claims} `{Settings} `{Externals} `{Datastore}.
Variable keypair : private_key -> public_key -> Prop.
Variable wire : gmap string value -> gmap string value.
Hypothesis laws : JwtLaws keypair wire.

(** X20: the claims a token made by [encode_jwt_token] carries resolve to
    the same user, or the same failure, as the payload it was made from,
    when the session and user ids are JSON-native: the defaults do not
    touch them and the wire keeps them. *)
Theorem authenticate_payload_of_token r s tok s1 :
  claims_distinct = true ->
  encode_jwt_token r s = (Ok tok, s1) ->
  json_native (dict_get (deref s r) SESSION_ID) = true ->
  json_native (dict_get (deref s r) USER_ID) = true ->
  jwt_decode_unverified tok = Ok (wire (deref s1 r))
  /\ authenticate_payload (wire (deref s1 r)) = authenticate_payload (deref s r).
Proof.
  intros Hd E Hsid Huid. names_distinct Hd as Htypes.
  destruct (encode_jwt_token_ok_view r s tok s1 Hd E)
    as (v & a & issuer & f & data & key & _ & _ & _ & _ & _ & _ & _ & Hjwt
        & Dafter & _).
  assert (Hkeep : forall k, k <> ISSUER -> k <> AUDIENCE -> k <> EXPIRATION_TIME ->
                            k <> ISSUED_AT ->
                            json_native (dict_get (deref s r) k) = true ->
                            dict_get (deref s1 r) k = dict_get (deref s r) k).
  { intros k Hi Ha He Ht Hn. rewrite Dafter, dict_get_jwt_int_dates.
    rewrite (dict_get_default (with_defaults _ _ _ _ _)).
    rewrite with_defaults_other, <- dict_get_default by assumption.
    apply jwt_int_date_native, Hn. }
  split.
  - eapply (claims_of_encode _ _ laws). exact Hjwt.
  - unfold authenticate_payload.
    rewrite !(wire_get keypair wire laws)
      by (rewrite Hkeep by (congruence || assumption); assumption).
    rewrite !Hkeep by (congruence || assumption). reflexivity.
Qed.

End Pipeline.

Lemma authenticate_payload_of_token_witness :
  let s := world 1000 session_payload in
  let s1 := snd (@encode_jwt_token the_claims svc_a plain_externals 0%nat s) in
  @authenticate_payload the_claims svc_a plain_datastore (plain_wire (deref s1 0%nat))
  = Ok alice.
Proof.
  intros s s1.
  assert (E : exists tok,
             @encode_jwt_token the_claims svc_a plain_externals 0%nat s = (Ok tok, s1)).
  { eexists. computed. }
  destruct E as [tok E].
  destruct (@authenticate_payload_of_token the_claims svc_a plain_externals
              plain_datastore eq plain_wire plain_jwt_laws 0%nat s tok s1
              eq_refl E eq_refl eq_refl) as [_ Hauth].
  rewrite Hauth. computed.
Defined.

(** ** Which key signs, which key verifies *)

Section KeyChoice.
Context `{Claims} `{Settings} `{Externals}.

(** X21: a token is always signed with the key loaded from the first
    private reference configured for the final issuer, and carries that
    reference's derived identifier in its header; later references of the
    issuer are never used for signing. *)
Theorem encode_jwt_token_signs_with_first_key r s tok s1 :
  claims_distinct = true ->
  encode_jwt_token r s = (Ok tok, s1) ->
  exists iss f rest data key,
    deref s1 r !! ISSUER = Some (VStr iss)
    /\ key_refs_list (PRIVATE_KEYS !! iss) = f :: rest
    /\ open_read (key_file_path f) = Ok data
    /\ load_pem_private_key data = Ok key
    /\ jwt_encode (deref s1 r) key ENCODE_ALGORITHM
         {[ KEY_ID := VStr (get_key_id f) ]} = Ok tok.
Proof.
  intros Hd E.
  destruct (encode_jwt_token_ok_view r s tok s1 Hd E)
    as (v & a & iss & f & data & key & _ & _ & _ & -> & Hf & Hread & Hload & Hjwt
        & Dafter & _).
  assert (Hiss : deref s1 r !! ISSUER = Some (VStr iss)).
  { rewrite Dafter, lookup_jwt_int_dates, with_defaults_issuer by exact Hd.
    reflexivity. }
  unfold get_key_file_name in Hf.
  destruct (key_refs_truthy (PRIVATE_KEYS !! iss)); simpl negb in Hf;
    cbv iota zeta in Hf; [| discriminate].
  destruct (key_refs_list (PRIVATE_KEYS !! iss)) as [|x rest] eqn:Hlist;
    [discriminate |].
  injection Hf as ->.
  exists iss, f, rest, data, key. repeat split; assumption.
Qed.

(** X22: key rotation at verification.  When the header names the derived
    identifier of a public reference of the issuer and no earlier
    reference matches it, the token is verified under the key loaded from
    that reference, after exactly that file has been read. *)
Theorem decode_jwt_token_uses_rotated_key tok s header body iss pre f post data key :
  jwt_get_unverified_header tok = Ok header ->
  jwt_decode_unverified tok = Ok body ->
  body !! ISSUER = Some iss ->
  match ACCEPTED_ISSUERS with
  | Some accepted => In (text_type iss) accepted
  | None => True
  end ->
  header_key_id header = Some (get_key_id f) ->
  get_key_id f <> "" ->
  key_refs_list (PUBLIC_KEYS !! text_type iss) = (pre ++ f :: post)%list ->
  (forall ik, In ik pre -> ik <> get_key_id f /\ get_key_id ik <> get_key_id f) ->
  open_read (key_file_path f) = Ok data ->
  load_pem_public_key data = Ok key ->
  fst (decode_jwt_token_verified tok s)
  = jwt_decode tok key VERIFY_SIGNATURE allowed_algorithms
      {| verify_exp := VERIFY_EXPIRATION; verify_aud := true; verify_iss := true |}
      EXPIRATION_LEEWAY IDENTITY (text_type iss) (clock s (reads s))
  /\ trace (snd (decode_jwt_token_verified tok s))
     = (trace s ++ [EvUnverifiedHeader; EvUnverifiedDecode;
                    EvReadFile (key_file_path f); EvLoadPublicKey;
                    EvJwtDecode])%list.
Proof.
  intros Hheader Hbody Hiss Hlist Hkid Hid Hrefs Hpre Hread Hload.
  rewrite (decode_jwt_token_verified_peeked tok s header body iss
             Hheader Hbody Hiss).
  assert (Hgate : match ACCEPTED_ISSUERS with
                  | Some accepted =>
                      negb (existsb (String.eqb (text_type iss)) accepted)
                  | None => false
                  end = false).
  { destruct ACCEPTED_ISSUERS as [accepted|]; [| reflexivity].
    apply negb_false_iff, existsb_exists. exists (text_type iss).
    split; [exact Hlist | apply String.eqb_refl]. }
  assert (Hf : get_key_file_name PUBLIC_KEYS (text_type iss)
                 (Some (get_key_id f)) = Ok f).
  { apply (get_key_file_name_first_match _ _ _ pre f post).
    - eapply key_refs_list_truthy; eassumption.
    - unfold key_id_truthy. apply negb_true_iff, String.eqb_neq. exact Hid.
    - exact Hrefs.
    - intros ik Hin.
      destruct (key_id_matches (get_key_id f) ik) eqn:Hm; [| reflexivity].
      apply key_id_matches_spec in Hm. destruct (Hpre ik Hin) as [Hv Hdv].
      destruct Hm; contradiction.
    - apply key_id_matches_spec. right. reflexivity. }
  rewrite Hgate, get_public_key_and_key_id_run, Hkid, Hf. cbv zeta.
  rewrite Hread, Hload. simpl.
  split; [reflexivity |]. rewrite <- !app_assoc. reflexivity.
Qed.

End KeyChoice.

Lemma encode_jwt_token_signs_with_first_key_witness :
  let s := world 1000 session_payload in
  exists tok s1 f rest,
    @encode_jwt_token the_claims svc_a plain_externals 0%nat s = (Ok tok, s1)
    /\ key_refs_list (@PRIVATE_KEYS svc_a !! "svc-a") = f :: rest
    /\ tk_header tok !! "kid" = Some (VStr (get_key_id f)).
Proof.
  intros s.
  assert (E : exists tok,
             @encode_jwt_token the_claims svc_a plain_externals 0%nat s
             = (Ok tok, snd (@encode_jwt_token the_claims svc_a plain_externals
                               0%nat s))).
  { eexists. computed. }
  destruct E as [tok E].
  destruct (@encode_jwt_token_signs_with_first_key the_claims svc_a plain_externals
              0%nat s tok _ eq_refl E)
    as (iss & f & rest & data & key & Hiss & Hlist & _ & _ & Hjwt).
  assert (iss = "svc-a").
  { vm_compute in Hiss. injection Hiss as <-. reflexivity. }
  subst iss.
  exists tok, (snd (@encode_jwt_token the_claims svc_a plain_externals 0%nat s)),
    f, rest.
  split; [exact E |]. split; [exact Hlist |].
  simpl in Hjwt. injection Hjwt as <-. simpl.
  rewrite !lookup_insert_ne by discriminate. apply lookup_singleton_eq.
Defined.

Lemma decode_jwt_token_uses_rotated_key_witness :
  let s := world 1000 ∅ in
  trace (snd (@decode_jwt_token_verified the_claims svc_b_verifier plain_externals
                second_key_token s))
  = [EvUnverifiedHeader; EvUnverifiedDecode; EvReadFile "/keys/svc-b.pem";
     EvLoadPublicKey; EvJwtDecode].
Proof.
  intros s.
  refine (proj2 (@decode_jwt_token_uses_rotated_key the_claims svc_b_verifier
                   plain_externals second_key_token s
                   (tk_header second_key_token) (tk_claims second_key_token)
                   (VStr "svc-b") ["svc-b-2018.pem"] "svc-b.pem" []
                   "key pair B" "key pair B" _ _ _ _ _ _ _ _ _ _)).
  - reflexivity.
  - reflexivity.
  - computed.
  - exact I.
  - computed.
  - discriminate.
  - computed.
  - intros ik [<- | []]. split; discriminate.
  - computed.
  - reflexivity.
Defined.
